(** * A-IQ model conversion scripts: a shallow embedding

    The repository holds three stand-alone Python scripts that fetch a
    pretrained image classifier, wrap it, trace it, convert it to a Core ML
    package, annotate the package and save it:

    - [scripts/convert_siglip_to_coreml.py]                      (module [SigLIP])
    - [scripts/model_conversion/convert_deepfake_detector.py]    (module [Deepfake])
    - [scripts/model_conversion/convert_xceptionnet_deepfake.py] (module [Xception])

    Each script is embedded as a computation in a small monad [M] that
    threads the packages saved on disk, records what the process prints and
    which library functions it calls, and distinguishes a normal return, a
    raised exception and [sys.exit].  Everything the third-party libraries
    decide (is a module installed, does a call raise, how is a library value
    rendered in an f-string) is read from a [world]. *)

From Stdlib Require Import ZArith QArith Reals Lra Lia List String Ascii.
From Stdlib Require Import Decimal DecimalString.
From Stdlib Require Lqa.
From stdpp Require Import base gmap strings list.
Import ListNotations.
Local Open Scope string_scope.

(** ** Python values the scripts handle *)

Module Py.

(** The exceptions the scripts can meet.  All three are subclasses of
    Python's [Exception]; [SystemExit], which is not, is a separate outcome
    of a computation (see [result]). *)
Inductive exn :=
| ImportError (name : string)
| KeyError (key : Z)
| Exception (msg : string).

Definition str_nat (n : nat) : string := NilEmpty.string_of_uint (Nat.to_uint n).
Definition str_Z (z : Z) : string := NilZero.string_of_int (Z.to_int z).

(** [str(e)] as an f-string renders it. *)
Definition str (e : exn) : string :=
  match e with
  | ImportError n => "No module named '" +:+ n +:+ "'"
  | KeyError k => str_Z k
  | Exception m => m
  end.

(** [except ImportError] and [except Exception]. *)
Definition is_ImportError (e : exn) : bool :=
  match e with ImportError _ => true | _ => false end.
Definition is_Exception (e : exn) : bool := true.

(** [s * n] on strings. *)
Fixpoint str_mul (s : string) (n : nat) : string :=
  match n with O => "" | S n' => s +:+ str_mul s n' end.

(** [sep.join(l)]. *)
Fixpoint join (sep : string) (l : list string) : string :=
  match l with
  | [] => ""
  | [x] => x
  | x :: xs => x +:+ sep +:+ join sep xs
  end.

(** [s.split(c)] for a one-character separator. *)
Fixpoint split (c : ascii) (s : string) : list string :=
  match s with
  | EmptyString => [""]
  | String a s' =>
      if Ascii.eqb a c then "" :: split c s'
      else match split c s' with
           | h :: t => String a h :: t
           | [] => [String a ""]
           end
  end.

(** No comma in the string. *)
Fixpoint comma_free (s : string) : bool :=
  match s with
  | EmptyString => true
  | String a s' => negb (Ascii.eqb a ",") && comma_free s'
  end.

Definition nl : string := String (ascii_of_nat 10) EmptyString.

End Py.
Export Py.

(** ** Core ML objects *)

Module CoreML.

Inductive colorlayout := RGB | BGR | GRAYSCALE.

(** [ct.ImageType(name=, shape=, scale=, bias=, color_layout=)]. *)
Record ImageType := {
  name : string;
  shape : list nat;
  scale : Q;
  bias : list Q;
  color_layout : colorlayout
}.

(** What an image input does to the value [p] of a pixel in channel [c]:
    the value is multiplied by [scale] and the channel's bias is added. *)
Definition preprocess (it : ImageType) (c : nat) (p : Q) : Q :=
  (scale it * p + nth c (bias it) 0)%Q.

(** The package object [ct.convert] returns and [finalize_model] annotates. *)
Record MLModel := {
  input_description : ImageType;
  output_name : string;
  minimum_deployment_target : string;
  convert_to : string;
  compute_precision : string;
  author : string;
  license : string;
  short_description : string;
  version : string;
  user_defined_metadata : gmap string string
}.

Definition with_author (v : string) (m : MLModel) : MLModel :=
  {| input_description := input_description m; output_name := output_name m;
     minimum_deployment_target := minimum_deployment_target m;
     convert_to := convert_to m; compute_precision := compute_precision m;
     author := v; license := license m;
     short_description := short_description m; version := version m;
     user_defined_metadata := user_defined_metadata m |}.

Definition with_license (v : string) (m : MLModel) : MLModel :=
  {| input_description := input_description m; output_name := output_name m;
     minimum_deployment_target := minimum_deployment_target m;
     convert_to := convert_to m; compute_precision := compute_precision m;
     author := author m; license := v;
     short_description := short_description m; version := version m;
     user_defined_metadata := user_defined_metadata m |}.

Definition with_short_description (v : string) (m : MLModel) : MLModel :=
  {| input_description := input_description m; output_name := output_name m;
     minimum_deployment_target := minimum_deployment_target m;
     convert_to := convert_to m; compute_precision := compute_precision m;
     author := author m; license := license m;
     short_description := v; version := version m;
     user_defined_metadata := user_defined_metadata m |}.

Definition with_version (v : string) (m : MLModel) : MLModel :=
  {| input_description := input_description m; output_name := output_name m;
     minimum_deployment_target := minimum_deployment_target m;
     convert_to := convert_to m; compute_precision := compute_precision m;
     author := author m; license := license m;
     short_description := short_description m; version := v;
     user_defined_metadata := user_defined_metadata m |}.

(** [mlmodel.user_defined_metadata[k] = v]. *)
Definition with_user_metadata (k v : string) (m : MLModel) : MLModel :=
  {| input_description := input_description m; output_name := output_name m;
     minimum_deployment_target := minimum_deployment_target m;
     convert_to := convert_to m; compute_precision := compute_precision m;
     author := author m; license := license m;
     short_description := short_description m; version := version m;
     user_defined_metadata := <[k := v]> (user_defined_metadata m) |}.

End CoreML.
Export CoreML.

(** ** Torch objects *)

Module Torch.

(** What a checkpoint file holds: named tensors, possibly nested under
    keys such as ["model"] or ["state_dict"]. *)
#[local] Set Warnings "-register-all".
Inductive payload :=
| Tensors (id : string)
| Dict (entries : list (string * payload)).
#[local] Set Warnings "register-all".

(** [k in d] and [d[k]] on a checkpoint dict (keys are looked up as Python
    does, the first binding of a key is the one). *)
Fixpoint contains (k : string) (d : list (string * payload)) : bool :=
  match d with
  | [] => false
  | (k', _) :: d' => if String.eqb k k' then true else contains k d'
  end.

Fixpoint getitem (k : string) (d : list (string * payload)) : option payload :=
  match d with
  | [] => None
  | (k', v) :: d' => if String.eqb k k' then Some v else getitem k d'
  end.

(** The parameters of a network: those it was created with, the state
    dict [load_state_dict(sd, strict=False)] has loaded when it returned,
    or what a [load_state_dict] that raised has left: it copies every
    tensor of [sd] that fits over the parameters it finds ([onto]) and
    raises at the end, for those that do not fit. *)
Inductive weights :=
| ImageNet
| Loaded (state_dict : payload)
| Partly (state_dict : payload) (onto : weights).

(** A network built by timm or torchvision. *)
Record net := {
  arch : string;
  num_classes : nat;
  aux_logits : bool;
  params : weights;
  training : bool
}.

(** [m.train(mode)], [m.fc = nn.Linear(m.fc.in_features, n)],
    [m.aux_logits = b] and a change of the parameters. *)
Definition train (mode : bool) (m : net) : net :=
  {| arch := arch m; num_classes := num_classes m; aux_logits := aux_logits m;
     params := params m; training := mode |}.

Definition with_fc (n : nat) (m : net) : net :=
  {| arch := arch m; num_classes := n; aux_logits := aux_logits m;
     params := params m; training := training m |}.

Definition with_aux_logits (b : bool) (m : net) : net :=
  {| arch := arch m; num_classes := num_classes m; aux_logits := b;
     params := params m; training := training m |}.

Definition with_params (p : weights) (m : net) : net :=
  {| arch := arch m; num_classes := num_classes m; aux_logits := aux_logits m;
     params := p; training := training m |}.

(** What [m.load_state_dict(sd, strict=False)] has done to [m] when it
    raises. *)
Definition load_partly (sd : payload) (m : net) : net :=
  with_params (Partly sd (params m)) m.

(** Tensors of floating-point numbers.  A number of the format is given
    by the real number it stands for; beside the numbers a tensor can hold
    the two infinities and not-a-number. *)
Inductive float := Fin (x : R) | PInf | NInf | NaN.

Definition logits_tensor : Type := list (list float).          (* batch x classes *)
Definition pixel_tensor : Type := list (list (list (list float))). (* N x C x H x W *)

Definition is_nan (x : float) : bool :=
  match x with NaN => true | _ => false end.
Definition is_pinf (x : float) : bool :=
  match x with PInf => true | _ => false end.
Definition finite (x : float) : option R :=
  match x with Fin r => Some r | _ => None end.

Definition sum (x : list R) : R := fold_right Rplus 0%R x.

(** The largest number of a list. *)
Definition maximum (x : list R) : R :=
  match x with
  | [] => 0%R
  | r :: x' => fold_right Rmax r x'
  end.

(** The arithmetic of the tensor library: how the real result of an
    operation is rounded to the format, the exponential on the format, and
    the sum of the numbers of a row (the order in which they are added up
    is the library's). *)
Record arithmetic := {
  round : R -> R;
  fexp : R -> R;
  fsum : list R -> R
}.

(** Arithmetic that does not round. *)
Definition exact : arithmetic := {| round := id; fexp := exp; fsum := sum |}.

(** A row softmax has numbers for: no not-a-number, no positive infinity
    and a finite entry.  In any other row the largest entry minus itself
    is not a number. *)
Definition regular (x : list float) : bool :=
  negb (existsb is_nan x) && negb (existsb is_pinf x)
  && match omap finite x with [] => false | _ :: _ => true end.

(** [torch.nn.functional.softmax(x, dim=-1)] on one row and on a batch:
    the largest entry is subtracted before the exponential is taken, the
    exponentials are added up, and each is divided by the sum.  Minus
    infinity has the exponential 0.  A result too small for the format is
    rounded to 0; not-a-number spreads over the row. *)
Definition exponentials (a : arithmetic) (x : list float) : list R :=
  let m := maximum (omap finite x) in
  map (fun xi => match xi with
                 | Fin r => fexp a (round a (r - m))
                 | _ => 0%R
                 end) x.

Definition softmax_row (a : arithmetic) (x : list float) : list float :=
  if regular x then
    let e := exponentials a x in
    let s := fsum a e in
    map (fun ei => Fin (round a (ei / s))) e
  else map (fun _ => NaN) x.
Definition softmax (a : arithmetic) (x : logits_tensor) : logits_tensor :=
  map (softmax_row a) x.

(** What a hub classifier returns: an object with a [logits] field. *)
Record ImageClassifierOutput := { logits : logits_tensor }.

(** The result of [torch.jit.trace] on a wrapper of class [traced_from]. *)
Record scripted := { traced_from : string }.

(** A model of the Hugging Face hub with its configuration;
    [from_pretrained] returns it in evaluation mode. *)
Record hub_model := {
  repo : string;
  id2label : gmap Z string;
  hub_training : bool
}.

Definition hub_train (mode : bool) (m : hub_model) : hub_model :=
  {| repo := repo m; id2label := id2label m; hub_training := mode |}.

End Torch.
Export Torch.

(** ** Effects *)

(** The library functions a script calls.  Each constructor is one callee
    with the arguments that tell its call sites apart. *)
Inductive call :=
| AutoImageProcessor_from_pretrained (id : string)
| Model_from_pretrained (cls id : string)
| Image_new (mode : string) (size : nat * nat) (color : nat * nat * nat)
| processor_call
| Wrapper_init (cls : string)
| torch_jit_trace (cls : string)
| traced_call
| ct_convert (traced : scripted) (inp : ImageType) (out : string)
| set_attr (attr value : string)
| set_user_metadata (key value : string)
| mlmodel_save (path : string)
| rglob_sizes (path : string)
| MLModel_load (path : string)
| MLModel_predict (input : string)
| format_spec (expr : string)
| timm_create_model (model_name : string) (pretrained : bool) (classes : nat)
| inception_v3 (pretrained_weights : string)
| nn_Linear (out_features : nat)
| NamedTemporaryFile (for_url : string)
| urlretrieve (url tmp : string)
| torch_load (tmp : string)
| load_state_dict (state_dict : payload)
| os_unlink (tmp : string)
| torch_randn (dims : list nat).

(** What the process does that an observer can see. *)
Inductive event :=
| Stdout (line : string)
| Called (c : call).

(** The environment a script runs in. *)
Record world := {
  (** can [import name] be resolved *)
  installed : string -> bool;
  (** the exception a library call raises, if it raises *)
  fails : call -> option exn;
  (** how a library value, named by the expression in the f-string, prints *)
  fmt : string -> string;
  (** [repr] of a list of strings *)
  repr_list : list string -> string;
  (** [config.id2label] of the hub model with this identifier *)
  hub_id2label : string -> gmap Z string;
  (** [pixel_values.shape] as the hub processor produces it *)
  pixel_values_shape : list nat;
  (** the metadata entries the converter itself writes *)
  converter_metadata : gmap string string;
  (** name of the temporary file made while trying a URL *)
  tmp_name : string -> string;
  (** what [torch.load] reads from a downloaded file *)
  checkpoint : string -> list (string * payload);
  (** [hasattr(probs, '__iter__')] on the prediction *)
  probs_iterable : bool;
  (** what is at a path after a [save] to it has raised, given what was
      there: [save] removes the package it finds before it copies the new
      one, and can raise in the one or in the other *)
  left_by_failed_save : string -> option MLModel -> option MLModel
}.

(** The mutable state: the packages saved on disk, by path, and the
    networks on the heap, by reference.  A network is an object that
    [load_state_dict] and [train] change in place, so every name bound to
    it sees the change. *)
Record state := {
  disk : gmap string MLModel;
  heap : gmap nat net
}.

Inductive result (A : Type) :=
| Ok (a : A)
| Raise (e : exn)
| SysExit (code : Z).
Arguments Ok {A} a.
Arguments Raise {A} e.
Arguments SysExit {A} code.

(** A computation yields a result, the events it produced (oldest first)
    and the state it leaves. *)
Definition M (A : Type) : Type := state -> result A * list event * state.

Definition ret {A} (a : A) : M A := fun st => (Ok a, [], st).

Definition bind {A B} (m : M A) (k : A -> M B) : M B :=
  fun st =>
    match m st with
    | (Ok a, t, st') => let '(r, t', st'') := k a st' in (r, (t ++ t')%list, st'')
    | (Raise e, t, st') => (Raise e, t, st')
    | (SysExit c, t, st') => (SysExit c, t, st')
    end.

#[global] Instance M_ret : MRet M := @ret.
#[global] Instance M_bind : MBind M := fun A B k m => bind m k.

Definition raise {A} (e : exn) : M A := fun st => (Raise e, [], st).
Definition sys_exit {A} (code : Z) : M A := fun st => (SysExit code, [], st).
Definition print (line : string) : M unit := fun st => (Ok tt, [Stdout line], st).

(** [try: body except <class> as e: handler e]. *)
Definition try_except {A} (body : M A) (catches : exn -> bool)
    (handler : exn -> M A) : M A :=
  fun st =>
    match body st with
    | (Raise e, t, st') =>
        if catches e
        then let '(r, t', st'') := handler e st' in (r, (t ++ t')%list, st'')
        else (Raise e, t, st')
    | other => other
    end.

(** A new object on the heap. *)
Definition alloc (n : net) : M nat :=
  fun st =>
    let l := fresh (dom (heap st)) in
    (Ok l, [], {| disk := disk st; heap := <[l := n]> (heap st) |}).

(** An in-place change of the object at [l]. *)
Definition mutate (l : nat) (f : net -> net) : M unit :=
  fun st => (Ok tt, [], {| disk := disk st; heap := alter f l (heap st) |}).

(** [os.path.exists(path)]. *)
Definition path_exists (path : string) : M bool :=
  fun st => (Ok (bool_decide (is_Some (disk st !! path))), [], st).

Section Primitives.
Variable w : world.

(** A library call: recorded, then it returns or raises as the world says. *)
Definition ext (c : call) : M unit :=
  fun st =>
    match fails w c with
    | None => (Ok tt, [Called c], st)
    | Some e => (Raise e, [Called c], st)
    end.

(** [import name]. *)
Definition import_ (name : string) : M unit :=
  if installed w name then mret tt else raise (ImportError name).

(** [ct.convert(traced, inputs=[inp], outputs=[ct.TensorType(name=out)],
    minimum_deployment_target=ct.target.macOS14, convert_to="mlprogram",
    compute_precision=ct.precision.FLOAT16)]. *)
Definition convert (traced : scripted) (inp : ImageType) (out : string)
    : M MLModel :=
  ext (ct_convert traced inp out);;
  mret {| input_description := inp; output_name := out;
          minimum_deployment_target := "macOS14";
          convert_to := "mlprogram"; compute_precision := "FLOAT16";
          author := ""; license := ""; short_description := "";
          version := ""; user_defined_metadata := converter_metadata w |}.

(** [mlmodel.<attr> = value] through the package's property setters. *)
Definition set_author (v : string) (m : MLModel) : M MLModel :=
  ext (set_attr "author" v);; mret (with_author v m).
Definition set_license (v : string) (m : MLModel) : M MLModel :=
  ext (set_attr "license" v);; mret (with_license v m).
Definition set_short_description (v : string) (m : MLModel) : M MLModel :=
  ext (set_attr "short_description" v);; mret (with_short_description v m).
Definition set_version (v : string) (m : MLModel) : M MLModel :=
  ext (set_attr "version" v);; mret (with_version v m).
Definition set_metadata (k v : string) (m : MLModel) : M MLModel :=
  ext (set_user_metadata k v);; mret (with_user_metadata k v m).

(** [mlmodel.save(path)]: the package replaces whatever was at [path].
    When the call raises, the package that was at [path] need not be
    there any more. *)
Definition save (m : MLModel) (path : string) : M unit :=
  fun st =>
    match fails w (mlmodel_save path) with
    | None => (Ok tt, [Called (mlmodel_save path)],
               {| disk := <[path := m]> (disk st); heap := heap st |})
    | Some e => (Raise e, [Called (mlmodel_save path)],
                 {| disk := partial_alter (left_by_failed_save w path) path
                              (disk st);
                    heap := heap st |})
    end.

(** [model.load_state_dict(state_dict, strict=False)] on the network at
    [model]: the network is changed in place whether the call returns or
    raises. *)
Definition load_weights (model : nat) (state_dict : payload) : M unit :=
  fun st =>
    match fails w (load_state_dict state_dict) with
    | None => (Ok tt, [Called (load_state_dict state_dict)],
               {| disk := disk st;
                  heap := alter (with_params (Loaded state_dict)) model
                            (heap st) |})
    | Some e => (Raise e, [Called (load_state_dict state_dict)],
                 {| disk := disk st;
                    heap := alter (load_partly state_dict) model (heap st) |})
    end.

(** [[d[i] for i in keys]]: the first missing key raises [KeyError]. *)
Fixpoint lookup_each (d : gmap Z string) (keys : list Z) : M (list string) :=
  match keys with
  | [] => mret []
  | i :: keys' =>
      match d !! i with
      | Some l => ls ← lookup_each d keys'; mret (l :: ls)
      | None => raise (KeyError i)
      end
  end.

(** [[id2label[i] for i in range(len(id2label))]]. *)
Definition labels_in_order (d : gmap Z string) : M (list string) :=
  lookup_each d (seqZ 0 (Z.of_nat (size d))).
End Primitives.

(** What the operating system sees of a finished process. *)
Record outcome := {
  status : Z;
  trace : list event;
  uncaught : option exn;
  files : gmap string MLModel
}.

(** An exception that reaches the top level ends the process with status 1;
    [sys.exit(c)] ends it with status [c]; falling off the end gives 0. *)
Definition finish (r : result unit * list event * state) : outcome :=
  let '(res, t, st) := r in
  {| status := match res with Ok _ => 0 | Raise _ => 1 | SysExit c => c end;
     trace := t;
     uncaught := match res with Raise e => Some e | _ => None end;
     files := disk st |}.

(** A process starts with the files it finds and an empty heap. *)
Definition boot (fs : gmap string MLModel) : state :=
  {| disk := fs; heap := ∅ |}.

(** ** scripts/convert_siglip_to_coreml.py *)

Module SigLIP.

Definition MODEL_ID : string := "Ateeqq/ai-vs-human-image-detector".
Definition OUTPUT_NAME : string := "AIDetector".
Definition INPUT_SIZE : nat := 224.

(** The libraries the docstring asks for (by module name) and the modules
    imported before [main] runs. *)
Definition requirements : list string :=
  ["torch"; "transformers"; "coremltools"; "PIL"].
Definition toplevel_imports : list string :=
  ["coremltools"; "numpy"; "torch"; "PIL"; "transformers"].

(** [ct.ImageType(name="image", shape=input_shape, scale=1.0 / 127.5,
    bias=[-1.0, -1.0, -1.0], color_layout=ct.colorlayout.RGB)]. *)
Definition image_input (input_shape : list nat) : ImageType :=
  {| name := "image"; shape := input_shape;
     scale := 1 / 127.5; bias := [-1; -1; -1]%Q;
     color_layout := RGB |}.

(** The reference transform, as the script's comment gives it:
    (pixel / 255 - 0.5) / 0.5. *)
Definition siglip_normalization (p : Q) : Q := ((p / 255 - 0.5) / 0.5)%Q.

Module SigLIPWrapper.
(** [forward(self, pixel_values)] for a wrapper around [model], in the
    arithmetic [a] of the tensor library. *)
Definition forward (a : arithmetic)
    (model : pixel_tensor -> ImageClassifierOutput)
    (pixel_values : pixel_tensor) : logits_tensor :=
  let outputs := model pixel_values in
  let probs := softmax a (logits outputs) in
  probs.
End SigLIPWrapper.

Section Script.
Variable w : world.

Definition download_model : M hub_model :=
  print ("Downloading model: " +:+ MODEL_ID);;
  ext w (AutoImageProcessor_from_pretrained MODEL_ID);;
  ext w (Model_from_pretrained "SiglipForImageClassification" MODEL_ID);;
  let model := {| repo := MODEL_ID; id2label := hub_id2label w MODEL_ID;
                  hub_training := false |} in
  let model := hub_train false model in
  print ("Model loaded: " +:+ fmt w "model.config.num_labels" +:+ " classes");;
  print ("Labels: " +:+ fmt w "model.config.id2label");;
  mret model.

Definition trace_model (model : hub_model) : M (scripted * list nat) :=
  print "Tracing model...";;
  ext w (Image_new "RGB" (INPUT_SIZE, INPUT_SIZE) (128, 128, 128)%nat);;
  ext w processor_call;;
  print ("Input shape: " +:+ fmt w "pixel_values.shape");;
  print ("Input range: [" +:+ fmt w "pixel_values.min():.3f" +:+ ", "
         +:+ fmt w "pixel_values.max():.3f" +:+ "]");;
  ext w (Wrapper_init "SigLIPWrapper");;
  let model := hub_train false model in
  ext w (torch_jit_trace "SigLIPWrapper");;
  ext w traced_call;;
  print ("Output shape: " +:+ fmt w "test_output.shape");;
  print ("Output sum (should be ~1.0): "
         +:+ fmt w "test_output.sum().item():.4f");;
  mret ({| traced_from := "SigLIPWrapper" |}, pixel_values_shape w).

Definition create_classifier_model (traced_model : scripted)
    (input_shape : list nat) (model_config : gmap Z string)
    : M (MLModel * list string) :=
  print "Creating classifier model...";;
  class_labels ← labels_in_order model_config;
  print ("Class labels for classifier: " +:+ repr_list w class_labels);;
  mlmodel ← convert w traced_model (image_input input_shape) "probs";
  mret (mlmodel, class_labels).

Definition finalize_model (mlmodel : MLModel) (class_labels : list string)
    : M MLModel :=
  print "Finalizing model with Float16 precision...";;
  mlmodel ← set_author w "A-IQ App" mlmodel;
  mlmodel ← set_license w "Apache 2.0" mlmodel;
  mlmodel ← set_short_description w
    ("AI-generated image detector (SigLIP architecture). "
     +:+ "Trained on modern generators: Midjourney v6.1, Flux 1.1 Pro, "
     +:+ "Stable Diffusion 3.5, GPT-4o. Accuracy: 99.23%.") mlmodel;
  mlmodel ← set_version w "2.0.0" mlmodel;
  mlmodel ← set_metadata w "class_labels" (join "," class_labels) mlmodel;
  mlmodel ← set_metadata w "source_model" MODEL_ID mlmodel;
  mlmodel ← set_metadata w "input_size" (str_nat INPUT_SIZE) mlmodel;
  mret mlmodel.

(** The body of the final [try:]. *)
Definition smoke_test (output_path : string) : M unit :=
  ext w (MLModel_load output_path);;
  ext w (MLModel_predict "image");;
  print ("Test prediction: " +:+ fmt w "result");;
  print "Model verification PASSED!".

Definition main : M unit :=
  print (str_mul "=" 60);;
  print "SigLIP to Core ML Converter";;
  print (str_mul "=" 60);;
  try_except
    (import_ w "coremltools";;
     print ("coremltools version: " +:+ fmt w "coremltools.__version__"))
    is_ImportError
    (fun _ =>
       print "ERROR: coremltools not installed";;
       print "Run: pip install coremltools torch transformers pillow";;
       sys_exit 1);;
  model ← download_model;
  '(traced, input_shape) ← trace_model model;
  '(mlmodel, class_labels) ←
    create_classifier_model traced input_shape (id2label model);
  mlmodel ← finalize_model mlmodel class_labels;
  let output_path := OUTPUT_NAME +:+ ".mlpackage" in
  print (nl +:+ "Saving model to: " +:+ output_path);;
  save w mlmodel output_path;;
  print (nl +:+ str_mul "=" 60);;
  print "SUCCESS!";;
  print (str_mul "=" 60);;
  print (nl +:+ "Model saved to: " +:+ output_path);;
  print ("Class labels: " +:+ repr_list w class_labels);;
  print (nl +:+ "To compile for deployment:");;
  print ("  xcrun coremlcompiler compile " +:+ output_path +:+ " ./");;
  print (nl +:+ "Then copy AIDetector.mlmodelc to:");;
  print "  A-IQ/Resources/AIDetector.mlmodelc";;
  print (nl +:+ "Verifying model...");;
  ext w (Image_new "RGB" (INPUT_SIZE, INPUT_SIZE) (100, 150, 200)%nat);;
  try_except (smoke_test output_path) is_Exception
    (fun e =>
       print ("Verification warning: " +:+ str e);;
       print "Model may still work - compile and test in Xcode.").

(** The module from its first line: the imports, then [main()]. *)
Definition script : M unit :=
  import_ w "coremltools";;
  import_ w "numpy";;
  import_ w "torch";;
  import_ w "PIL";;
  import_ w "transformers";;
  main.
End Script.

End SigLIP.

(** ** scripts/model_conversion/convert_deepfake_detector.py *)

Module Deepfake.

Definition MODEL_ID : string := "prithivMLmods/deepfake-detector-model-v1".
Definition OUTPUT_NAME : string := "DeepfakeDetector".
Definition INPUT_SIZE : nat := 512.

Definition requirements : list string :=
  ["torch"; "transformers"; "coremltools"; "PIL"].
Definition toplevel_imports : list string :=
  ["coremltools"; "numpy"; "torch"; "PIL"; "transformers"].

(** [ct.ImageType(name="face_image", shape=input_shape, scale=1.0 / 127.5,
    bias=[-1.0, -1.0, -1.0], color_layout=ct.colorlayout.RGB)]. *)
Definition image_input (input_shape : list nat) : ImageType :=
  {| name := "face_image"; shape := input_shape;
     scale := 1 / 127.5; bias := [-1; -1; -1]%Q;
     color_layout := RGB |}.

Definition siglip_normalization (p : Q) : Q := ((p / 255 - 0.5) / 0.5)%Q.

Module DeepfakeWrapper.
Definition forward (a : arithmetic)
    (model : pixel_tensor -> ImageClassifierOutput)
    (pixel_values : pixel_tensor) : logits_tensor :=
  let outputs := model pixel_values in
  let probs := softmax a (logits outputs) in
  probs.
End DeepfakeWrapper.

Section Script.
Variable w : world.

Definition download_model : M hub_model :=
  print ("Downloading model: " +:+ MODEL_ID);;
  ext w (AutoImageProcessor_from_pretrained MODEL_ID);;
  ext w (Model_from_pretrained "AutoModelForImageClassification" MODEL_ID);;
  let model := {| repo := MODEL_ID; id2label := hub_id2label w MODEL_ID;
                  hub_training := false |} in
  let model := hub_train false model in
  print ("Model loaded: " +:+ fmt w "model.config.num_labels" +:+ " classes");;
  print ("Labels: " +:+ fmt w "model.config.id2label");;
  mret model.

Definition trace_model (model : hub_model) : M (scripted * list nat) :=
  print "Tracing model...";;
  ext w (Image_new "RGB" (INPUT_SIZE, INPUT_SIZE) (128, 128, 128)%nat);;
  ext w processor_call;;
  print ("Input shape: " +:+ fmt w "pixel_values.shape");;
  print ("Input range: [" +:+ fmt w "pixel_values.min():.3f" +:+ ", "
         +:+ fmt w "pixel_values.max():.3f" +:+ "]");;
  ext w (Wrapper_init "DeepfakeWrapper");;
  let model := hub_train false model in
  ext w (torch_jit_trace "DeepfakeWrapper");;
  ext w traced_call;;
  print ("Output shape: " +:+ fmt w "test_output.shape");;
  print ("Output sum (should be ~1.0): "
         +:+ fmt w "test_output.sum().item():.4f");;
  mret ({| traced_from := "DeepfakeWrapper" |}, pixel_values_shape w).

Definition convert_to_coreml (traced_model : scripted)
    (input_shape : list nat) (model_config : gmap Z string)
    : M (MLModel * list string) :=
  print "Converting to Core ML...";;
  class_labels ← labels_in_order model_config;
  print ("Class labels: " +:+ repr_list w class_labels);;
  mlmodel ← convert w traced_model (image_input input_shape) "probabilities";
  mret (mlmodel, class_labels).

Definition finalize_model (mlmodel : MLModel) (class_labels : list string)
    : M MLModel :=
  print "Finalizing model...";;
  mlmodel ← set_author w "A-IQ App" mlmodel;
  mlmodel ← set_license w "Apache 2.0" mlmodel;
  mlmodel ← set_short_description w
    ("Deepfake/face-swap detector (SigLIP architecture). "
     +:+ "Fine-tuned for binary deepfake image classification. "
     +:+ "Input: 512x512 face crop. Accuracy: ~94%.") mlmodel;
  mlmodel ← set_version w "1.0.0" mlmodel;
  mlmodel ← set_metadata w "class_labels" (join "," class_labels) mlmodel;
  mlmodel ← set_metadata w "source_model" MODEL_ID mlmodel;
  mlmodel ← set_metadata w "input_size" (str_nat INPUT_SIZE) mlmodel;
  mret mlmodel.

(** [if os.path.exists(output_path): ... print(f"\nModel size: ...")]. *)
Definition report_size (output_path : string) : M unit :=
  there ← path_exists output_path;
  if there : bool then
    ext w (rglob_sizes output_path);;
    print (nl +:+ "Model size: " +:+ fmt w "size_mb:.1f" +:+ " MB")
  else mret tt.

(** The body of the final [try:]. *)
Definition smoke_test (output_path : string) : M unit :=
  ext w (MLModel_load output_path);;
  ext w (MLModel_predict "face_image");;
  print ("Test prediction: " +:+ fmt w "result");;
  print "Model verification PASSED!".

Definition main : M unit :=
  print (str_mul "=" 60);;
  print "Deepfake Detector (SigLIP) to Core ML Converter";;
  print (str_mul "=" 60);;
  try_except
    (import_ w "coremltools";;
     print ("coremltools version: " +:+ fmt w "coremltools.__version__"))
    is_ImportError
    (fun _ =>
       print "ERROR: coremltools not installed";;
       print "Run: pip install coremltools torch transformers pillow";;
       sys_exit 1);;
  model ← download_model;
  '(traced, input_shape) ← trace_model model;
  '(mlmodel, class_labels) ←
    convert_to_coreml traced input_shape (id2label model);
  mlmodel ← finalize_model mlmodel class_labels;
  let output_path := OUTPUT_NAME +:+ ".mlpackage" in
  print (nl +:+ "Saving model to: " +:+ output_path);;
  save w mlmodel output_path;;
  print (nl +:+ str_mul "=" 60);;
  print "SUCCESS!";;
  print (str_mul "=" 60);;
  print (nl +:+ "Model saved to: " +:+ output_path);;
  print ("Class labels: " +:+ repr_list w class_labels);;
  print (nl +:+ "To compile for deployment:");;
  print ("  xcrun coremlcompiler compile " +:+ output_path +:+ " ./");;
  print (nl +:+ "Then copy DeepfakeDetector.mlmodelc to:");;
  print "  A-IQ/Resources/DeepfakeDetector.mlmodelc";;
  report_size output_path;;
  print (nl +:+ "Verifying model...");;
  ext w (Image_new "RGB" (INPUT_SIZE, INPUT_SIZE) (100, 150, 200)%nat);;
  try_except (smoke_test output_path) is_Exception
    (fun e =>
       print ("Verification warning: " +:+ str e);;
       print "Model may still work - compile and test in Xcode.").

Definition script : M unit :=
  import_ w "coremltools";;
  import_ w "numpy";;
  import_ w "torch";;
  import_ w "PIL";;
  import_ w "transformers";;
  main.
End Script.

End Deepfake.

(** ** scripts/model_conversion/convert_xceptionnet_deepfake.py *)

Module Xception.

Definition OUTPUT_NAME : string := "DeepfakeDetector".
Definition INPUT_SIZE : nat := 299.

Definition requirements : list string :=
  ["torch"; "torchvision"; "coremltools"; "PIL"; "timm"].
Definition toplevel_imports : list string :=
  ["coremltools"; "numpy"; "torch"; "PIL"].

Definition weight_urls : list string :=
  ["https://github.com/kaushikram31/deepfake-detection-XceptionNet/raw/main/models/xception_ff.pth"].

(** [ct.ImageType(name="face_image", shape=input_shape,
    scale=1.0 / (255.0 * 0.226),
    bias=[-0.485/0.229, -0.456/0.224, -0.406/0.225],
    color_layout=ct.colorlayout.RGB)]. *)
Definition image_input (input_shape : list nat) : ImageType :=
  {| name := "face_image"; shape := input_shape;
     scale := 1 / (255 * 0.226);
     bias := [-0.485 / 0.229; -0.456 / 0.224; -0.406 / 0.225]%Q;
     color_layout := RGB |}.

(** The reference transform, as the script's comment gives it:
    (pixel / 255 - mean) / std with mean = [0.485, 0.456, 0.406] and
    std = [0.229, 0.224, 0.225]. *)
Definition imagenet_mean : list Q := [0.485; 0.456; 0.406]%Q.
Definition imagenet_std : list Q := [0.229; 0.224; 0.225]%Q.
Definition imagenet_normalization (c : nat) (p : Q) : Q :=
  ((p / 255 - nth c imagenet_mean 0) / nth c imagenet_std 0)%Q.

Module XceptionWrapper.
(** [forward(self, x)]: here the model returns the logits themselves. *)
Definition forward (a : arithmetic) (model : pixel_tensor -> logits_tensor)
    (x : pixel_tensor) : logits_tensor :=
  let logits := model x in
  let probs := softmax a logits in
  probs.
End XceptionWrapper.

(** [if 'model' in state_dict: state_dict = state_dict['model']
    elif 'state_dict' in state_dict: state_dict = state_dict['state_dict']]. *)
Definition unwrap (loaded : list (string * payload)) : payload :=
  if contains "model" loaded
  then default (Dict loaded) (getitem "model" loaded)
  else if contains "state_dict" loaded
  then default (Dict loaded) (getitem "state_dict" loaded)
  else Dict loaded.

(** The lines printed after the loop when no URL gave weights. *)
Definition baseline_warning : list event :=
  [Stdout (nl +:+ "WARNING: Could not download pretrained deepfake weights.");
   Stdout "Using ImageNet pretrained XceptionNet as baseline.";
   Stdout "For best results, manually download weights from:";
   Stdout "  - https://github.com/kaushikram31/deepfake-detection-XceptionNet";
   Stdout "  - https://github.com/HongguLiu/Deepfake-Detection";
   Stdout (nl +:+ "Proceeding with ImageNet pretrained model...")].

Section Script.
Variable w : world.

Definition create_xceptionnet_model : M nat :=
  print "Creating XceptionNet model...";;
  try_except
    (import_ w "timm";;
     ext w (timm_create_model "xception" true 2);;
     model ← alloc {| arch := "xception"; num_classes := 2;
                      aux_logits := false; params := ImageNet;
                      training := true |};
     print ("Model created with "
            +:+ fmt w "sum(p.numel() for p in model.parameters())"
            +:+ " parameters");;
     mret model)
    is_ImportError
    (fun _ =>
       print "timm not available, using torchvision Inception as fallback";;
       import_ w "torchvision";;
       ext w (inception_v3 "IMAGENET1K_V1");;
       model ← alloc {| arch := "inception_v3"; num_classes := 1000;
                        aux_logits := true; params := ImageNet;
                        training := true |};
       ext w (nn_Linear 2);;
       mutate model (with_fc 2);;
       mutate model (with_aux_logits false);;
       mret model).

(** The body of the [try:] inside the loop, for one URL.  The [with]
    block leaves through [return model].  [load_state_dict] changes the
    network in place: what it has copied stays when it raises, and what it
    has loaded stays when [os.unlink] raises after it. *)
Definition try_url (model : nat) (url : string) : M nat :=
  print ("Trying to download from: " +:+ url);;
  ext w (NamedTemporaryFile url);;
  let tmp := tmp_name w url in
  ext w (urlretrieve url tmp);;
  ext w (torch_load tmp);;
  let state_dict := unwrap (checkpoint w tmp) in
  load_weights w model state_dict;;
  print "Successfully loaded pretrained deepfake detection weights!";;
  ext w (os_unlink tmp);;
  mret model.

(** [for url in urls: try: ... return model except Exception as e: ...
    continue], followed by what comes after the loop. *)
Fixpoint download_from (urls : list string) (model : nat) : M nat :=
  match urls with
  | url :: urls' =>
      done ← try_except (model ← try_url model url; mret (Some model))
               is_Exception
               (fun e =>
                  print ("Could not load from " +:+ url +:+ ": " +:+ str e);;
                  mret None);
      match done with
      | Some model' => mret model'
      | None => download_from urls' model
      end
  | [] =>
      print (nl +:+ "WARNING: Could not download pretrained deepfake weights.");;
      print "Using ImageNet pretrained XceptionNet as baseline.";;
      print "For best results, manually download weights from:";;
      print "  - https://github.com/kaushikram31/deepfake-detection-XceptionNet";;
      print "  - https://github.com/HongguLiu/Deepfake-Detection";;
      print (nl +:+ "Proceeding with ImageNet pretrained model...");;
      mret model
  end.

Definition download_pretrained_weights (model : nat) : M nat :=
  print "Setting up pretrained weights...";;
  download_from weight_urls model.

(** The exception that keeps the state dict of [url] from reaching
    [load_state_dict], if there is one: the first of the three calls
    before it that raises. *)
Definition fetch_failure (url : string) : option exn :=
  let tmp := tmp_name w url in
  match fails w (NamedTemporaryFile url) with
  | Some e => Some e
  | None =>
  match fails w (urlretrieve url tmp) with
  | Some e => Some e
  | None => fails w (torch_load tmp)
  end end.

(** The exception that makes the download or the weight load for [url]
    fail, if one of them fails: the first of the four calls that raises. *)
Definition load_failure (url : string) : option exn :=
  match fetch_failure url with
  | Some e => Some e
  | None => fails w (load_state_dict (unwrap (checkpoint w (tmp_name w url))))
  end.

Definition trace_model (model : nat) : M (scripted * list nat) :=
  print "Tracing model...";;
  ext w (Wrapper_init "XceptionWrapper");;
  mutate model (train false);;
  let dims := [1; 3; INPUT_SIZE; INPUT_SIZE]%nat in
  ext w (torch_randn dims);;
  print ("Input shape: " +:+ fmt w "dummy_input.shape");;
  ext w (torch_jit_trace "XceptionWrapper");;
  ext w traced_call;;
  print ("Output shape: " +:+ fmt w "test_output.shape");;
  print ("Output sum (should be ~1.0): "
         +:+ fmt w "test_output.sum().item():.4f");;
  mret ({| traced_from := "XceptionWrapper" |}, dims).

Definition convert_to_coreml (traced_model : scripted)
    (input_shape : list nat) : M MLModel :=
  print "Converting to Core ML...";;
  convert w traced_model (image_input input_shape) "probabilities".

Definition finalize_model (mlmodel : MLModel) : M MLModel :=
  print "Finalizing model...";;
  mlmodel ← set_author w "A-IQ App" mlmodel;
  mlmodel ← set_license w "Research use" mlmodel;
  mlmodel ← set_short_description w
    ("Deepfake/face-swap detector (XceptionNet architecture). "
     +:+ "Trained on FaceForensics++ dataset. "
     +:+ "Input: 299x299 face crop. Output: [real_prob, fake_prob].") mlmodel;
  mlmodel ← set_version w "1.0.0" mlmodel;
  mlmodel ← set_metadata w "class_labels" "Real,Fake" mlmodel;
  mlmodel ← set_metadata w "training_data" "FaceForensics++" mlmodel;
  mlmodel ← set_metadata w "input_size" (str_nat INPUT_SIZE) mlmodel;
  mlmodel ← set_metadata w "output_format"
              "[real_probability, fake_probability]" mlmodel;
  mret mlmodel.

Definition report_size (output_path : string) : M unit :=
  there ← path_exists output_path;
  if there : bool then
    ext w (rglob_sizes output_path);;
    print (nl +:+ "Model size: " +:+ fmt w "size_mb:.1f" +:+ " MB")
  else mret tt.

(** The body of the final [try:]. *)
Definition smoke_test (output_path : string) : M unit :=
  ext w (MLModel_load output_path);;
  ext w (MLModel_predict "face_image");;
  print ("Test prediction: " +:+ fmt w "result");;
  (if probs_iterable w then
     ext w (format_spec "probs[0]:.4f");;
     print ("  Real probability: " +:+ fmt w "probs[0]:.4f");;
     ext w (format_spec "probs[1]:.4f");;
     print ("  Fake probability: " +:+ fmt w "probs[1]:.4f")
   else mret tt);;
  print "Model verification PASSED!".

Definition main : M unit :=
  print (str_mul "=" 60);;
  print "XceptionNet Deepfake Detector to Core ML Converter";;
  print (str_mul "=" 60);;
  try_except
    (import_ w "coremltools";;
     print ("coremltools version: " +:+ fmt w "coremltools.__version__"))
    is_ImportError
    (fun _ =>
       print "ERROR: coremltools not installed";;
       print "Run: pip install coremltools torch torchvision timm pillow";;
       sys_exit 1);;
  model ← create_xceptionnet_model;
  model ← download_pretrained_weights model;
  mutate model (train false);;
  '(traced, input_shape) ← trace_model model;
  mlmodel ← convert_to_coreml traced input_shape;
  mlmodel ← finalize_model mlmodel;
  let output_path := OUTPUT_NAME +:+ ".mlpackage" in
  print (nl +:+ "Saving model to: " +:+ output_path);;
  save w mlmodel output_path;;
  print (nl +:+ str_mul "=" 60);;
  print "SUCCESS!";;
  print (str_mul "=" 60);;
  print (nl +:+ "Model saved to: " +:+ output_path);;
  print (nl +:+ "To compile for deployment:");;
  print ("  xcrun coremlcompiler compile " +:+ output_path +:+ " ./");;
  print (nl +:+ "Then copy DeepfakeDetector.mlmodelc to:");;
  print "  A-IQ/Resources/DeepfakeDetector.mlmodelc";;
  report_size output_path;;
  print (nl +:+ "Verifying model...");;
  ext w (Image_new "RGB" (INPUT_SIZE, INPUT_SIZE) (100, 150, 200)%nat);;
  try_except (smoke_test output_path) is_Exception
    (fun e =>
       print ("Verification warning: " +:+ str e);;
       print "Model may still work - compile and test in Xcode.").

Definition script : M unit :=
  import_ w "coremltools";;
  import_ w "numpy";;
  import_ w "torch";;
  import_ w "PIL";;
  main.
End Script.

End Xception.

(** ** The three scripts as processes *)

Inductive script := AIDetector | DeepfakeSigLIP | DeepfakeXception.

Definition program (s : script) (w : world) : M unit :=
  match s with
  | AIDetector => SigLIP.script w
  | DeepfakeSigLIP => Deepfake.script w
  | DeepfakeXception => Xception.script w
  end.

(** Running script [s] in world [w] with the packages [fs] on disk. *)
Definition run (s : script) (w : world) (fs : gmap string MLModel) : outcome :=
  finish (program s w (boot fs)).

Definition output_path (s : script) : string :=
  match s with
  | AIDetector => SigLIP.OUTPUT_NAME +:+ ".mlpackage"
  | DeepfakeSigLIP => Deepfake.OUTPUT_NAME +:+ ".mlpackage"
  | DeepfakeXception => Xception.OUTPUT_NAME +:+ ".mlpackage"
  end.

(** The constants each script is configured with.  The XceptionNet
    script has no model identifier. *)
Definition input_size (s : script) : nat :=
  match s with
  | AIDetector => SigLIP.INPUT_SIZE
  | DeepfakeSigLIP => Deepfake.INPUT_SIZE
  | DeepfakeXception => Xception.INPUT_SIZE
  end.

Definition model_id (s : script) : option string :=
  match s with
  | AIDetector => Some SigLIP.MODEL_ID
  | DeepfakeSigLIP => Some Deepfake.MODEL_ID
  | DeepfakeXception => None
  end.

Definition package_license (s : script) : string :=
  match s with
  | AIDetector | DeepfakeSigLIP => "Apache 2.0"
  | DeepfakeXception => "Research use"
  end.

Definition package_version (s : script) : string :=
  match s with
  | AIDetector => "2.0.0"
  | DeepfakeSigLIP | DeepfakeXception => "1.0.0"
  end.

Definition toplevel_imports (s : script) : list string :=
  match s with
  | AIDetector => SigLIP.toplevel_imports
  | DeepfakeSigLIP => Deepfake.toplevel_imports
  | DeepfakeXception => Xception.toplevel_imports
  end.

Definition requirements (s : script) : list string :=
  match s with
  | AIDetector => SigLIP.requirements
  | DeepfakeSigLIP => Deepfake.requirements
  | DeepfakeXception => Xception.requirements
  end.

(** ** The steps of a conversion *)

Inductive step := Fetch | Wrap | Trace | Convert | Annotate | Save | Verify.

#[global] Instance step_eq_dec : EqDecision step.
Proof. solve_decision. Defined.

Definition pipeline : list step :=
  [Fetch; Wrap; Trace; Convert; Annotate; Save; Verify].

(** The step a library call belongs to.  Building the sample image and
    measuring the saved package are not steps of their own. *)
Definition step_of (c : call) : option step :=
  match c with
  | AutoImageProcessor_from_pretrained _ | Model_from_pretrained _ _
  | timm_create_model _ _ _ | inception_v3 _ | nn_Linear _
  | NamedTemporaryFile _ | urlretrieve _ _ | torch_load _
  | load_state_dict _ | os_unlink _ => Some Fetch
  | Wrapper_init _ => Some Wrap
  | torch_jit_trace _ | traced_call => Some Trace
  | ct_convert _ _ _ => Some Convert
  | set_attr _ _ | set_user_metadata _ _ => Some Annotate
  | mlmodel_save _ => Some Save
  | MLModel_load _ | MLModel_predict _ | format_spec _ => Some Verify
  | Image_new _ _ _ | processor_call | torch_randn _ | rglob_sizes _ => None
  end.

(** Consecutive calls of one step count once. *)
Fixpoint squash (l : list step) : list step :=
  match l with
  | a :: l' =>
      match squash l' with
      | b :: r => if decide (a = b) then b :: r else a :: b :: r
      | [] => [a]
      end
  | [] => []
  end.

Definition event_step (ev : event) : option step :=
  match ev with
  | Called c => step_of c
  | Stdout _ => None
  end.

(** The steps a run went through, in order. *)
Definition phases (t : list event) : list step :=
  squash (omap event_step t).

(** [is_prefix l k]: the list [k] starts with [l]. *)
Fixpoint is_prefix (l k : list step) : bool :=
  match l, k with
  | [], _ => true
  | a :: l', b :: k' => bool_decide (a = b) && is_prefix l' k'
  | _ :: _, [] => false
  end.

(** ** Worlds to run the scripts in *)

(** Everything is installed and no call raises. *)
Definition ideal_world : world :=
  {| installed := fun _ => true;
     fails := fun _ => None;
     fmt := fun expr => "{" +:+ expr +:+ "}";
     repr_list := fun l => "[" +:+ join ", " l +:+ "]";
     hub_id2label := fun _ => <[0%Z := "ai"]> (<[1%Z := "hum"]> ∅);
     pixel_values_shape := [1; 3; 224; 224]%nat;
     converter_metadata := ∅;
     tmp_name := fun _ => "/tmp/tmpq1w2e3.pth";
     checkpoint := fun _ => [("state_dict", Tensors "xception_ff")];
     probs_iterable := true;
     left_by_failed_save := fun _ _ => None |}.

(** [w] with the modules named in [libs] not installed. *)
Definition without (libs : list string) (w : world) : world :=
  {| installed := fun n => if bool_decide (n ∈ libs) then false else installed w n;
     fails := fails w; fmt := fmt w; repr_list := repr_list w;
     hub_id2label := hub_id2label w;
     pixel_values_shape := pixel_values_shape w;
     converter_metadata := converter_metadata w;
     tmp_name := tmp_name w; checkpoint := checkpoint w;
     probs_iterable := probs_iterable w;
     left_by_failed_save := left_by_failed_save w |}.

(** [w] where the calls picked by [which] raise [e]. *)
Definition breaking (which : call -> bool) (e : exn) (w : world) : world :=
  {| installed := installed w;
     fails := fun c => if which c then Some e else fails w c;
     fmt := fmt w; repr_list := repr_list w;
     hub_id2label := hub_id2label w;
     pixel_values_shape := pixel_values_shape w;
     converter_metadata := converter_metadata w;
     tmp_name := tmp_name w; checkpoint := checkpoint w;
     probs_iterable := probs_iterable w;
     left_by_failed_save := left_by_failed_save w |}.

Definition is_predict (c : call) : bool :=
  match c with MLModel_predict _ => true | _ => false end.
Definition is_urlretrieve (c : call) : bool :=
  match c with urlretrieve _ _ => true | _ => false end.

(** A world whose downloads all fail with HTTP 404. *)
Definition offline_world : world :=
  breaking is_urlretrieve (Exception "HTTP Error 404: Not Found") ideal_world.



(** A world in which no package can be written. *)
Definition is_save (c : call) : bool :=
  match c with mlmodel_save _ => true | _ => false end.
Definition full_disk_world : world :=
  breaking is_save (Exception "No space left on device") ideal_world.

(** A world in which the prediction on the reloaded package raises. *)
Definition unpredictable_world : world :=
  breaking is_predict (Exception "Unable to load CoreML.framework") ideal_world.


(** [id2label] has an entry for every class index below its size. *)
Definition dense (d : gmap Z string) : Prop :=
  forall i : nat, (i < size d)%nat -> is_Some (d !! Z.of_nat i).


(** A probability vector over [n] classes, up to the tolerance [tol] on
    its sum: [n] numbers between 0 and 1 whose sum is within [tol] of 1. *)
Definition distribution (n : nat) (tol : R) (row : list float) : Prop :=
  length row = n /\
  exists ps, row = map Fin ps /\
    Forall (fun p => (0 <= p <= 1)%R) ps /\
    (Rabs (sum ps - 1) <= tol)%R.

(** A batch of probability vectors over [n] classes: every entry is a
    number between 0 and 1 and every row sums to 1. *)
Definition probabilities (n : nat) (t : logits_tensor) : Prop :=
  Forall (distribution n 0) t.

(** What is taken for granted of a floating-point arithmetic, on rows of
    [n] numbers: rounding is monotone, keeps 0 and 1 and is off by at most
    the relative error [u], or by [eta] where the format underflows; the
    exponential is 1 at 0 and between 0 and 1 below; every term of a sum
    of non-negative numbers is at most the sum, which is off by at most
    the relative error [g]. *)
Record standard (a : arithmetic) (n : nat) (u g eta : R) : Prop := {
  u_nonneg : (0 <= u)%R;
  g_range : (0 <= g < 1)%R;
  eta_nonneg : (0 <= eta)%R;
  round_monotone : forall x y, (x <= y)%R -> (round a x <= round a y)%R;
  round_0 : round a 0 = 0%R;
  round_1 : round a 1 = 1%R;
  round_error : forall x, (0 <= x <= 1)%R ->
    (Rabs (round a x - x) <= u * x + eta)%R;
  fexp_0 : fexp a 0 = 1%R;
  fexp_range : forall y, (y <= 0)%R -> (0 <= fexp a y <= 1)%R;
  fsum_term : forall l e, Forall (fun v => (0 <= v)%R) l -> In e l ->
    (e <= fsum a l)%R;
  fsum_error : forall l, length l = n -> Forall (fun v => (0 <= v)%R) l ->
    (Rabs (fsum a l - sum l) <= g * sum l)%R
}.

(** What the softmax of a batch of rows of [n] logits is, row by row: a
    probability vector up to [tol] where the logits are regular, and
    not-a-number throughout where they are not. *)
Definition softmax_post (n : nat) (tol : R) (x y : logits_tensor) : Prop :=
  Forall2 (fun lrow prow =>
             length prow = n /\
             if regular lrow then distribution n tol prow
             else prow = map (fun _ => NaN) lrow) x y.

(** The body of the final [try:] of each script. *)
Definition smoke_test (s : script) (w : world) : M unit :=
  match s with
  | AIDetector => SigLIP.smoke_test w (output_path s)
  | DeepfakeSigLIP => Deepfake.smoke_test w (output_path s)
  | DeepfakeXception => Xception.smoke_test w (output_path s)
  end.

(** ** Reading a trace *)

(** An event of the fetch step: a printed line or a call of that step. *)
Definition fetch_event (ev : event) : Prop :=
  match ev with
  | Stdout _ => True
  | Called c => step_of c = Some Fetch
  end.

(** The URLs a download was started for, in order. *)
Definition downloads (t : list event) : list string :=
  omap (fun ev => match ev with
                  | Called (urlretrieve url _) => Some url
                  | _ => None
                  end) t.

(** The first call of a smoke test: reloading the saved package. *)
Definition starts_smoke_test (ev : event) : bool :=
  match ev with Called (MLModel_load _) => true | _ => false end.

(** What the download loop guarantees when it runs over [urls] for the
    network at [model], from state [st]. *)
Definition download_post (w : world) (urls : list string) (model : nat)
    (st : state) (r : result nat) (t : list event) (st' : state) : Prop :=
  r = Ok model /\ disk st' = disk st /\ Forall fetch_event t /\
  sublist (downloads t) urls /\
  (forall c e, In (Called c) t -> fails w c = Some e ->
     exists url, In url urls /\
       In (Stdout ("Could not load from " +:+ url +:+ ": " +:+ str e)) t) /\
  ((forall url, In url urls -> Xception.load_failure w url <> None) ->
     exists t0, t = (t0 ++ Xception.baseline_warning)%list) /\
  ((forall url, In url urls -> Xception.fetch_failure w url <> None) ->
     heap st' = heap st).

(** What the package a script saves carries. *)
Definition annotated (s : script) (w : world) (st : state) (pkg : MLModel) : Prop :=
  author pkg = "A-IQ App" /\
  license pkg = package_license s /\
  version pkg = package_version s /\
  user_defined_metadata pkg !! "input_size" = Some (str_nat (input_size s)) /\
  match model_id s with
  | Some id =>
      user_defined_metadata pkg !! "source_model" = Some id /\
      exists ls, labels_in_order (hub_id2label w id) st = (Ok ls, [], st) /\
        user_defined_metadata pkg !! "class_labels" = Some (join "," ls)
  | None =>
      user_defined_metadata pkg !! "source_model"
        = converter_metadata w !! "source_model" /\
      user_defined_metadata pkg !! "class_labels" = Some "Real,Fake" /\
      user_defined_metadata pkg !! "training_data" = Some "FaceForensics++" /\
      user_defined_metadata pkg !! "output_format"
        = Some "[real_probability, fake_probability]"
  end.

(** ** More to read off a run *)

(** Is [line] among the lines printed in [t]. *)
Definition prints (line : string) (t : list event) : bool :=
  existsb (fun ev => match ev with
                     | Stdout l => String.eqb l line
                     | Called _ => false
                     end) t.

(** The line of the dependency check in [main], the two lines that close
    the smoke test, and the first line of the warning after the loop. *)
Definition error_line : string := "ERROR: coremltools not installed".
Definition passed_line : string := "Model verification PASSED!".
Definition retry_line : string :=
  "Model may still work - compile and test in Xcode.".

(** The state dict the script loads from the file downloaded from [url]. *)
Definition state_dict_of (w : world) (url : string) : payload :=
  Xception.unwrap (checkpoint w (tmp_name w url)).


(** How the download loop over [urls] can turn the parameters [old] into
    [p]: URL by URL, an attempt leaves the parameters alone, or its
    [load_state_dict] returns and they are the state dict of the URL, or
    its [load_state_dict] raises and they are what it has left; then come
    the other URLs. *)
Fixpoint written_from (w : world) (urls : list string) (old p : weights)
    : Prop :=
  match urls with
  | [] => p = old
  | url :: urls' =>
      written_from w urls' old p \/
      (Xception.load_failure w url = None /\
       written_from w urls' (Loaded (state_dict_of w url)) p) \/
      (Xception.fetch_failure w url = None /\
       (exists e, fails w (load_state_dict (state_dict_of w url)) = Some e) /\
       written_from w urls' (Partly (state_dict_of w url) old) p)
  end.

(** What the download loop leaves of the heap: only the parameters of the
    network at [model] can differ, and they come from the URLs. *)
Definition reweighted (w : world) (urls : list string) (model : nat)
    (h h' : gmap nat net) : Prop :=
  (forall l, l <> model -> h' !! l = h !! l) /\
  (h !! model = None -> h' !! model = None) /\
  forall n, h !! model = Some n ->
    exists p, h' !! model = Some (with_params p n) /\
      written_from w urls (params n) p.

(** The image input and the output name each script converts with. *)
Definition image_input_of (s : script) (w : world) : ImageType :=
  match s with
  | AIDetector => SigLIP.image_input (pixel_values_shape w)
  | DeepfakeSigLIP => Deepfake.image_input (pixel_values_shape w)
  | DeepfakeXception =>
      Xception.image_input [1; 3; Xception.INPUT_SIZE; Xception.INPUT_SIZE]%nat
  end.

Definition output_of (s : script) : string :=
  match s with
  | AIDetector => "probs"
  | DeepfakeSigLIP | DeepfakeXception => "probabilities"
  end.

(** The metadata keys [finalize_model] writes. *)
Definition metadata_keys (s : script) : list string :=
  match s with
  | AIDetector | DeepfakeSigLIP => ["class_labels"; "source_model"; "input_size"]
  | DeepfakeXception =>
      ["class_labels"; "training_data"; "input_size"; "output_format"]
  end.

(** What the saved package has from [ct.convert]. *)
Definition converted (s : script) (w : world) (pkg : MLModel) : Prop :=
  input_description pkg = image_input_of s w /\
  output_name pkg = output_of s /\
  minimum_deployment_target pkg = "macOS14" /\
  convert_to pkg = "mlprogram" /\
  compute_precision pkg = "FLOAT16" /\
  forall k, ~ In k (metadata_keys s) ->
    user_defined_metadata pkg !! k = converter_metadata w !! k.

(** The calls that read the saved package back, in order. *)
Definition check_of (ev : event) : option call :=
  match ev with
  | Called (rglob_sizes p) => Some (rglob_sizes p)
  | Called (MLModel_load p) => Some (MLModel_load p)
  | Called (MLModel_predict i) => Some (MLModel_predict i)
  | _ => None
  end.
Definition checks (t : list event) : list call := omap check_of t.

(** The checks a script makes on the package it saved. *)
Definition expected_checks (s : script) (pkg : MLModel) : list call :=
  match s with
  | AIDetector => []
  | DeepfakeSigLIP | DeepfakeXception => [rglob_sizes (output_path s)]
  end ++
  [MLModel_load (output_path s); MLModel_predict (name (input_description pkg))].

(** Has [mlmodel.save(path)] been called in [t]. *)
Definition saving (path : string) (t : list event) : bool :=
  existsb (fun ev => match ev with
                     | Called (mlmodel_save p) => String.eqb p path
                     | _ => false
                     end) t.

(** The events that tell how far a run got: the lines that announce an
    outcome, the save and the checks. *)
Definition marker_lines : list string :=
  [error_line; "SUCCESS!"; passed_line; retry_line].

Definition notable (ev : event) : bool :=
  match ev with
  | Stdout l => existsb (String.eqb l) marker_lines
  | Called (mlmodel_save _) => true
  | Called _ => match check_of ev with Some _ => true | None => false end
  end.

Definition observe (t : list event) : list event := List.filter notable t.

(** What holds of every run of script [s] in world [w] from the files
    [fs], in terms of its status [st], its uncaught exception [un], the
    files [fl] it leaves and its events [ob]. *)
Definition verdict (s : script) (w : world) (fs : gmap string MLModel)
    (st : Z) (un : option exn) (fl : gmap string MLModel)
    (ob : list event) : Prop :=
  (st = 0%Z /\ un = None \/ st = 1%Z /\ un <> None) /\
  prints error_line ob = false /\
  prints passed_line ob || prints retry_line ob = (st =? 0)%Z /\
  prints passed_line ob && prints retry_line ob = false /\
  if prints "SUCCESS!" ob
  then exists pkg,
         fl = <[output_path s := pkg]> fs /\
         annotated s w (boot fs) pkg /\ converted s w pkg /\
         checks ob `prefix_of` expected_checks s pkg /\
         (s <> AIDetector -> checks ob <> []) /\
         saving (output_path s) ob = true
  else st = 1%Z /\ checks ob = [] /\
       fl = if saving (output_path s) ob
            then partial_alter (left_by_failed_save w (output_path s))
                   (output_path s) fs
            else fs.

Definition sound (s : script) (w : world) (fs : gmap string MLModel)
    (o : outcome) : Prop :=
  verdict s w fs (status o) (uncaught o) (files o) (observe (trace o)).

(** [w] where every hub model has the labels [d]. *)
Definition with_labels (d : gmap Z string) (w : world) : world :=
  {| installed := installed w; fails := fails w; fmt := fmt w;
     repr_list := repr_list w;
     hub_id2label := fun _ => d;
     pixel_values_shape := pixel_values_shape w;
     converter_metadata := converter_metadata w;
     tmp_name := tmp_name w; checkpoint := checkpoint w;
     probs_iterable := probs_iterable w;
     left_by_failed_save := left_by_failed_save w |}.

(** A world whose hub models have labels for the classes 0 and 2 only. *)
Definition sparse_world : world :=
  with_labels (<[0%Z := "ai"]> (<[2%Z := "hum"]> ∅)) ideal_world.

Definition is_unlink (c : call) : bool :=
  match c with os_unlink _ => true | _ => false end.

(** A world in which a temporary file cannot be removed. *)
Definition locked_world : world :=
  breaking is_unlink (Exception "Permission denied") ideal_world.

(** ** Reasoning about computations *)

(** [wp m st Q]: running [m] from [st] ends in a result, a trace and a
    state that satisfy [Q]. *)
Definition wp {A} (m : M A) (st : state)
    (Q : result A -> list event -> state -> Prop) : Prop :=
  Q (m st).1.1 (m st).1.2 (m st).2.

(** * Properties *)

(** ** Rules for [wp] *)

Section WpRules.
Context {A B : Type}.
Implicit Types (st : state) (t : list event).

Lemma wp_ret (a : A) st (Q : result A -> list event -> state -> Prop) :
  Q (Ok a) [] st -> wp (mret a) st Q.
Proof. intros H. exact H. Qed.

Lemma wp_bind (m : M A) (k : A -> M B) st
    (Q : result B -> list event -> state -> Prop) :
  wp m st (fun r t st' =>
    match r with
    | Ok a => wp (k a) st' (fun r' t' st'' => Q r' (t ++ t')%list st'')
    | Raise e => Q (Raise e) t st'
    | SysExit c => Q (SysExit c) t st'
    end) ->
  wp (m ≫= k) st Q.
Proof.
  unfold wp, mbind, M_bind, bind.
  destruct (m st) as [[[a|e|c] t] st']; cbn; auto.
  destruct (k a st') as [[r' t'] st'']; cbn; auto.
Qed.

Lemma wp_raise e st (Q : result A -> list event -> state -> Prop) :
  Q (Raise e) [] st -> wp (raise e) st Q.
Proof. intros H. exact H. Qed.

Lemma wp_sys_exit c st (Q : result A -> list event -> state -> Prop) :
  Q (SysExit c) [] st -> wp (sys_exit c) st Q.
Proof. intros H. exact H. Qed.

Lemma wp_try_except (body : M A) (catches : exn -> bool)
    (handler : exn -> M A) st
    (Q : result A -> list event -> state -> Prop) :
  wp body st (fun r t st' =>
    match r with
    | Raise e =>
        if catches e
        then wp (handler e) st' (fun r' t' st'' => Q r' (t ++ t')%list st'')
        else Q (Raise e) t st'
    | Ok a => Q (Ok a) t st'
    | SysExit c => Q (SysExit c) t st'
    end) ->
  wp (try_except body catches handler) st Q.
Proof.
  unfold wp, try_except.
  destruct (body st) as [[[a|e|c] t] st']; cbn; auto.
  destruct (catches e); cbn; auto.
  destruct (handler e st') as [[r' t'] st'']; cbn; auto.
Qed.

Lemma wp_if (b : bool) (m1 m2 : M A) st
    (Q : result A -> list event -> state -> Prop) :
  (b = true -> wp m1 st Q) -> (b = false -> wp m2 st Q) ->
  wp (if b then m1 else m2) st Q.
Proof. destruct b; auto. Qed.

Lemma wp_mono (m : M A) st (Q Q' : result A -> list event -> state -> Prop) :
  wp m st Q -> (forall r t st', Q r t st' -> Q' r t st') -> wp m st Q'.
Proof. unfold wp; auto. Qed.
End WpRules.

Section WpPrimitives.
Variable w : world.
Implicit Types (st : state) (Q : result unit -> list event -> state -> Prop).

Lemma wp_print s st Q : Q (Ok tt) [Stdout s] st -> wp (print s) st Q.
Proof. intros H. exact H. Qed.

Lemma wp_ext c st Q :
  (forall e, fails w c = Some e -> Q (Raise e) [Called c] st) ->
  (fails w c = None -> Q (Ok tt) [Called c] st) ->
  wp (ext w c) st Q.
Proof. unfold wp, ext. destruct (fails w c); cbn; auto. Qed.

Lemma wp_import n st Q :
  (installed w n = false -> Q (Raise (ImportError n)) [] st) ->
  (installed w n = true -> Q (Ok tt) [] st) ->
  wp (import_ w n) st Q.
Proof. unfold wp, import_. destruct (installed w n); cbn; auto. Qed.

Lemma wp_save m path st Q :
  (forall e, fails w (mlmodel_save path) = Some e ->
     Q (Raise e) [Called (mlmodel_save path)]
       {| disk := partial_alter (left_by_failed_save w path) path (disk st);
          heap := heap st |}) ->
  (fails w (mlmodel_save path) = None ->
     Q (Ok tt) [Called (mlmodel_save path)]
       {| disk := <[path := m]> (disk st); heap := heap st |}) ->
  wp (save w m path) st Q.
Proof. unfold wp, save. destruct (fails w _); cbn; auto. Qed.

Lemma wp_load_weights model sd st Q :
  (forall e, fails w (load_state_dict sd) = Some e ->
     Q (Raise e) [Called (load_state_dict sd)]
       {| disk := disk st; heap := alter (load_partly sd) model (heap st) |}) ->
  (fails w (load_state_dict sd) = None ->
     Q (Ok tt) [Called (load_state_dict sd)]
       {| disk := disk st;
          heap := alter (with_params (Loaded sd)) model (heap st) |}) ->
  wp (load_weights w model sd) st Q.
Proof. unfold wp, load_weights. destruct (fails w _); cbn; auto. Qed.

Lemma wp_mutate l f st Q :
  Q (Ok tt) [] {| disk := disk st; heap := alter f l (heap st) |} ->
  wp (mutate l f) st Q.
Proof. intros H. exact H. Qed.

Lemma wp_path_exists path st
    (Q : result bool -> list event -> state -> Prop) :
  Q (Ok (bool_decide (is_Some (disk st !! path)))) [] st ->
  wp (path_exists path) st Q.
Proof. intros H. exact H. Qed.

Lemma wp_alloc n st (Q : result nat -> list event -> state -> Prop) :
  Q (Ok (fresh (dom (heap st)))) []
    {| disk := disk st; heap := <[fresh (dom (heap st)) := n]> (heap st) |} ->
  wp (alloc n) st Q.
Proof. intros H. exact H. Qed.
End WpPrimitives.

(** The list comprehension over the labels neither prints nor changes the
    state; it yields the labels or raises [KeyError]. *)
Lemma lookup_each_pure d keys st :
  (exists ls, lookup_each d keys st = (Ok ls, [], st)) \/
  (exists i, lookup_each d keys st = (Raise (KeyError i), [], st)).
Proof.
  induction keys as [|i keys IH]; cbn.
  - left. by eexists.
  - destruct (d !! i) as [l|]; [|right; by eexists].
    unfold mbind, M_bind, bind.
    destruct IH as [[ls ->]|[j ->]]; [left|right]; by eexists.
Qed.

Lemma wp_labels_in_order d st
    (Q : result (list string) -> list event -> state -> Prop) :
  (forall ls, labels_in_order d st = (Ok ls, [], st) -> Q (Ok ls) [] st) ->
  (forall i, labels_in_order d st = (Raise (KeyError i), [], st) ->
     Q (Raise (KeyError i)) [] st) ->
  wp (labels_in_order d) st Q.
Proof.
  intros Hok Herr. unfold wp.
  destruct (lookup_each_pure d (seqZ 0 (Z.of_nat (size d))) st)
    as [[ls H]|[i H]]; unfold labels_in_order in *; rewrite H; cbn; auto.
Qed.

Lemma wp_run s w fs (P : outcome -> Prop) :
  wp (program s w) (boot fs) (fun r t st => P (finish (r, t, st))) ->
  P (run s w fs).
Proof.
  unfold wp, run. by destruct (program s w (boot fs)) as [[r t] st].
Qed.

(** Symbolic execution: one rule per construct, a definition is unfolded
    when no rule applies. *)
Ltac head_of t := lazymatch t with ?f _ => head_of f | _ => t end.

Ltac wp_head m :=
  lazymatch m with
  | mbind _ _ => apply wp_bind
  | mret _ => apply wp_ret
  | print _ => apply wp_print
  | raise _ => apply wp_raise
  | sys_exit _ => apply wp_sys_exit
  | ext _ _ => apply wp_ext; [intros ? ? | intros ?]
  | import_ ?w ?n =>
      apply wp_import; intros ?;
      try lazymatch goal with
          | H1 : installed w n = true, H2 : installed w n = false |- _ =>
              exfalso; congruence
          end
  | save _ _ _ => apply wp_save; [intros ? ? | intros ?]
  | load_weights _ _ _ => apply wp_load_weights; [intros ? ? | intros ?]
  | path_exists _ => apply wp_path_exists
  | alloc _ => apply wp_alloc
  | mutate _ _ => apply wp_mutate
  | try_except _ _ _ => apply wp_try_except
  | labels_in_order _ => apply wp_labels_in_order; intros ? ?
  | Xception.create_xceptionnet_model _ => fail
  | Xception.download_pretrained_weights _ _ => fail
  | Xception.download_from _ _ _ => fail
  | (if probs_iterable _ then _ else _) => apply wp_if; intros ?
  | (if _ then _ else _) => apply wp_if; intros _
  | _ => let h := head_of m in unfold h
  end.

Ltac wp_step :=
  lazymatch goal with
  | |- wp ?m _ _ => wp_head m
  | |- (if is_ImportError ?e then _ else _) =>
      tryif is_var e then destruct e else idtac; cbn [is_ImportError]
  end;
  lazy beta iota zeta delta [is_Exception].

(** [wp_exec] follows every path; [wp_exec_with tac] gives up a path as
    soon as [tac] shows that it cannot be taken. *)
Ltac wp_exec_with tac := repeat (wp_step; try (exfalso; tac)).
Ltac wp_exec := repeat wp_step.

(** ** Reading traces *)

Lemma fetch_event_called c t :
  Forall fetch_event t -> In (Called c) t -> step_of c = Some Fetch.
Proof.
  intros Hall Hin. rewrite Forall_forall in Hall.
  apply list_elem_of_In in Hin. exact (Hall _ Hin).
Qed.

Lemma in_load_existsb p t :
  In (Called (MLModel_load p)) t -> existsb starts_smoke_test t = true.
Proof. intros H. apply existsb_exists. by eexists. Qed.

Lemma fetch_no_load t :
  Forall fetch_event t -> existsb starts_smoke_test t = false.
Proof.
  induction 1 as [|ev t Hev _ IH]; [done|]. cbn. rewrite IH.
  by destruct ev as [|[]].
Qed.

Lemma downloads_app t1 t2 :
  downloads (t1 ++ t2) = (downloads t1 ++ downloads t2)%list.
Proof. unfold downloads. apply omap_app. Qed.

(** Closes [Forall fetch_event l] for a list given by conses and appends. *)
Ltac fetch_events :=
  cbn [app]; repeat (apply Forall_app; split);
  repeat first [ assumption
               | apply Forall_nil; trivial
               | apply Forall_cons; split; [exact I || reflexivity|] ].

(** Closes [In x l] for a list [l] given by conses and appends. *)
Ltac find_in :=
  lazymatch goal with
  | |- In _ (_ :: _) => first [left; reflexivity | right; find_in]
  | |- In _ (_ ++ _) => apply in_or_app; first [left; find_in | right; find_in]
  | |- In _ _ => assumption
  end.

(** From [H : In (Called c) l] for an explicit list [l] of events: one
    case per call in [l]. *)
Ltac split_in H :=
  cbn [app In] in H;
  repeat match type of H with
         | _ \/ _ => destruct H as [H|H]
         end;
  first [discriminate H | contradiction H | injection H as <- | idtac].

(** The events of [l] before its tail [tl]. *)
Ltac prefix_upto l tl :=
  lazymatch l with
  | tl => constr:(@nil event)
  | ?a :: ?r => let p := prefix_upto r tl in constr:(a :: p)
  end.

(** Refutes [H : In (Called (MLModel_load p)) l] when [l] has no such call. *)
Ltac no_such_call H :=
  exfalso; apply in_load_existsb in H;
  cbn [app existsb starts_smoke_test orb] in H;
  repeat (progress
            (rewrite ?existsb_app in H;
             repeat match goal with
                    | Hf : Forall fetch_event ?t |- _ =>
                        progress rewrite (fetch_no_load t Hf) in H
                    end;
             cbn [app existsb starts_smoke_test orb] in H));
  discriminate H.

(** ** The fetch step of the XceptionNet script *)

Lemma create_xceptionnet_model_fetch w st :
  wp (Xception.create_xceptionnet_model w) st (fun r t st' =>
    Forall fetch_event t /\ disk st' = disk st /\
    match r with
    | Ok _ => omap event_step t <> []
    | Raise _ => True
    | SysExit _ => False
    end).
Proof.
  unfold Xception.create_xceptionnet_model. wp_exec.
  all: cbn [app disk]; repeat split; try fetch_events; done.
Qed.

(** Closes [fetch_failure w url = None] or [load_failure w url = None]
    from the calls that return. *)
Ltac load_succeeds :=
  unfold Xception.load_failure, Xception.fetch_failure; cbv zeta;
  by repeat match goal with
            | H : fails _ _ = None |- _ => rewrite H; clear H
            end.

Lemma download_post_cons w url urls model st st1 pre r t' st' :
  download_post w urls model st1 r t' st' ->
  disk st1 = disk st ->
  Forall fetch_event pre ->
  sublist (downloads pre) [url] ->
  (forall c e, In (Called c) pre -> fails w c = Some e ->
     In (Stdout ("Could not load from " +:+ url +:+ ": " +:+ str e)) pre) ->
  (Xception.fetch_failure w url <> None -> heap st1 = heap st) ->
  download_post w (url :: urls) model st r (pre ++ t') st'.
Proof.
  intros (Hr & Hd & Hf & Hs & Hlog & Hwarn & Hheap) Hd1 Hf1 Hs1 Hlog1 Hh1.
  unfold download_post. split_and!.
  - exact Hr.
  - congruence.
  - by apply Forall_app.
  - rewrite downloads_app. by apply (sublist_app _ [url]).
  - intros c e [Hin|Hin]%in_app_or Hc.
    + exists url. split; [by left|]. apply in_or_app. left. eauto.
    + destruct (Hlog c e Hin Hc) as (u & Hu & Hline).
      exists u. split; [by right|]. apply in_or_app. by right.
  - intros Hfail.
    destruct Hwarn as [t0 ->]; [intros u Hu; apply Hfail; by right|].
    exists (pre ++ t0)%list. by rewrite app_assoc.
  - intros Hfail. rewrite Hheap by (intros u Hu; apply Hfail; by right).
    apply Hh1, Hfail. by left.
Qed.

(** The loop, by induction on the URLs still to try. *)
Lemma download_from_spec w urls model st :
  wp (Xception.download_from w urls model) st (download_post w urls model st).
Proof.
  revert st. induction urls as [|url urls IH]; intros st;
    cbn [Xception.download_from].
  - wp_exec. cbn [app]. unfold download_post.
    split_and!; try fetch_events; try done.
    + intros c e Hin. cbn in Hin. intuition discriminate.
    + intros _. by exists [].
  - wp_step. wp_step. unfold Xception.try_url. wp_exec.
    1-5: eapply wp_mono; [apply IH|]; intros r t' st' Hpost; cbn [app];
      lazymatch goal with
      | |- download_post _ _ _ _ _ ?l _ =>
          let p := prefix_upto l t' in change l with (p ++ t')%list
      end;
      (eapply download_post_cons;
       [ exact Hpost | reflexivity | fetch_events | |
         intros c e' Hin Hc; split_in Hin;
         first [congruence | assert (e' = e) as -> by congruence; find_in] | ]).
    all: try (cbn; first [apply sublist_nil_l | reflexivity]).
    all: try (intros _; reflexivity).
    + intros Hlf. exfalso. apply Hlf. load_succeeds.
    + intros Hlf. exfalso. apply Hlf. load_succeeds.
    + cbn [app]. unfold download_post.
      split_and!; try fetch_events; try done.
      * cbn. apply sublist_skip, sublist_nil_l.
      * intros c e Hin Hc. split_in Hin; congruence.
      * intros Hlf. exfalso. apply (Hlf url); [by left|]. load_succeeds.
      * intros Hlf. exfalso. apply (Hlf url); [by left|]. load_succeeds.
Qed.

(** ** The download loop (C2) *)




(** ** The smoke test (C3) *)

(** Evaluates a smoke test in [H] with what is known of the world. *)
Ltac eval_smoke_test H :=
  unfold smoke_test, output_path, SigLIP.smoke_test, Deepfake.smoke_test,
    Xception.smoke_test, mbind, mret, M_bind, M_ret, bind, ret, ext, print in H;
  repeat match goal with
         | Hw : fails _ _ = _ |- _ => rewrite Hw in H
         | Hw : probs_iterable _ = _ |- _ => rewrite Hw in H
         end;
  cbn in H.

Ltac smoke_leaf :=
  cbn [finish status trace uncaught files app];
  let Hin := fresh "Hin" in
  intros Hin;
  first
    [ no_such_call Hin
    | split_and!; [reflexivity | reflexivity | find_in |];
      let e := fresh "e" in let st := fresh "st" in let Hs := fresh "Hs" in
      intros e st Hs; eval_smoke_test Hs;
      first [discriminate Hs | injection Hs as <-; split; find_in] ].

(** C3.  In each of the three scripts, once the smoke test has started
    (the saved package is being reloaded), the process ends with status 0
    and no uncaught exception, and the SUCCESS banner is on standard
    output, whatever the smoke test does; and if the smoke test raises
    [e], the lines "Verification warning: <e>" and "Model may still work
    - compile and test in Xcode." are printed. *)
Theorem smoke_test_failure_not_fatal (s : script) (w : world)
    (fs : gmap string MLModel) :
  In (Called (MLModel_load (output_path s))) (trace (run s w fs)) ->
  status (run s w fs) = 0%Z /\ uncaught (run s w fs) = None /\
  In (Stdout "SUCCESS!") (trace (run s w fs)) /\
  forall e st, (smoke_test s w st).1.1 = Raise e ->
    In (Stdout ("Verification warning: " +:+ str e)) (trace (run s w fs)) /\
    In (Stdout "Model may still work - compile and test in Xcode.")
       (trace (run s w fs)).
Proof.
  pattern (run s w fs).
  match goal with |- ?P0 _ => set (P := P0) end.
  apply wp_run. destruct s; unfold program.
  - wp_exec; subst P; cbv beta; smoke_leaf.
  - wp_exec; subst P; cbv beta; smoke_leaf.
  - wp_exec.
    all: lazymatch goal with
         | |- wp _ _ _ => idtac
         | |- _ => subst P; cbv beta; smoke_leaf
         end.
    eapply wp_mono; [apply create_xceptionnet_model_fetch|].
    intros [model|e|c] t1 st1 (Hf1 & Hd1 & Hr1); [|clear Hr1|done].
    2: { subst P; cbv beta. smoke_leaf. }
    unfold Xception.download_pretrained_weights. wp_exec.
    eapply wp_mono; [apply download_from_spec|].
    intros r t2 st2 (-> & Hd2 & Hf2 & _).
    wp_exec; subst P; cbv beta; smoke_leaf.
Qed.

Lemma smoke_test_failure_not_fatal_witness :
  status (run AIDetector unpredictable_world ∅) = 0%Z /\
  In (Stdout "Verification warning: Unable to load CoreML.framework")
     (trace (run AIDetector unpredictable_world ∅)).
Proof.
  destruct (smoke_test_failure_not_fatal AIDetector unpredictable_world ∅)
    as (Hs & _ & _ & Hw).
  - vm_compute. tauto.
  - split; [exact Hs|].
    apply (Hw (Exception "Unable to load CoreML.framework") (boot ∅)).
    vm_compute. reflexivity.
Defined.

(** ** The order of the steps (C6) *)

Lemma is_prefix_spec l k : is_prefix l k = true -> l `prefix_of` k.
Proof.
  revert k. induction l as [|a l IH]; intros k; [intros _; apply prefix_nil|].
  destruct k as [|b k]; cbn; [done|].
  intros [Hab Hlk]%andb_prop. apply bool_decide_eq_true in Hab as ->.
  by apply prefix_cons, IH.
Qed.

Lemma fetch_event_steps t :
  Forall fetch_event t -> Forall (eq Fetch) (omap event_step t).
Proof.
  induction 1 as [|ev t Hev _ IH]; [constructor|].
  destruct ev as [l|c]; cbn; [done|].
  cbn in Hev. rewrite Hev. by constructor.
Qed.

Lemma squash_same a l : Forall (eq a) l -> squash l = [] \/ squash l = [a].
Proof.
  induction 1 as [|b l <- _ IH]; [by left|]. right. cbn.
  destruct IH as [->| ->]; [done|]. by rewrite decide_True.
Qed.

Lemma squash_same_app a l1 l2 :
  Forall (eq a) l1 -> l1 <> [] -> squash (l1 ++ l2) = squash (a :: l2).
Proof.
  induction 1 as [|b l <- Hl IH]; [done|]. intros _.
  destruct l as [|c l]; [done|].
  change (squash ((a :: c :: l) ++ l2)) with
    (match squash ((c :: l) ++ l2) with
     | b :: r => if decide (a = b) then b :: r else a :: b :: r
     | [] => [a]
     end).
  rewrite IH by done. cbn.
  destruct (squash l2) as [|b r]; [by rewrite decide_True|].
  destruct (decide (a = b)) as [<-|Hne].
  - by rewrite decide_True.
  - by rewrite decide_True.
Qed.

Ltac steps_norm :=
  unfold phases; cbn [app omap list_omap event_step step_of];
  repeat (progress (rewrite ?omap_app; cbn [app omap list_omap event_step step_of])).

Lemma squash_fetch t1 t2 rest :
  Forall fetch_event t1 -> Forall fetch_event t2 ->
  omap event_step t1 <> [] ->
  squash (omap event_step t1 ++ omap event_step t2 ++ rest)
  = squash (Fetch :: rest).
Proof.
  intros H1 H2 Hne. rewrite app_assoc. apply squash_same_app.
  - apply Forall_app. split; by apply fetch_event_steps.
  - by intros [? _]%app_eq_nil.
Qed.

Lemma squash_fetch_only t :
  Forall fetch_event t -> squash (omap event_step t) `prefix_of` pipeline.
Proof.
  intros H. destruct (squash_same Fetch _ (fetch_event_steps t H)) as [->| ->].
  - apply prefix_nil.
  - by apply is_prefix_spec.
Qed.

Ltac phases_closed :=
  split;
  [ apply is_prefix_spec; vm_compute; reflexivity
  | let H := fresh in intros H; first [discriminate H | vm_compute; reflexivity] ].

Ltac phases_leaf :=
  cbn [finish status trace uncaught files app];
  first
    [ phases_closed
    | steps_norm; rewrite ?app_nil_r;
      first [ rewrite squash_fetch by assumption; phases_closed
            | split; [by apply squash_fetch_only | discriminate] ] ].

(** C6.  Whatever the world does, the steps a script goes through are
    an initial part of fetch, wrap, trace, convert, annotate, save,
    verify: nothing runs out of order and no step is entered twice.  A
    run that ends with status 0 went through exactly these seven steps,
    none skipped. *)
Theorem steps_run_in_pipeline_order (s : script) (w : world)
    (fs : gmap string MLModel) :
  phases (trace (run s w fs)) `prefix_of` pipeline /\
  (status (run s w fs) = 0%Z -> phases (trace (run s w fs)) = pipeline).
Proof.
  pattern (run s w fs).
  match goal with |- ?P0 _ => set (P := P0) end.
  apply wp_run. destruct s; unfold program.
  - wp_exec; subst P; cbv beta; phases_leaf.
  - wp_exec; subst P; cbv beta; phases_leaf.
  - wp_exec.
    all: lazymatch goal with
         | |- wp _ _ _ => idtac
         | |- _ => subst P; cbv beta; phases_leaf
         end.
    eapply wp_mono; [apply create_xceptionnet_model_fetch|].
    intros [model|e|c] t1 st1 (Hf1 & Hd1 & Hr1); [|clear Hr1|done].
    2: { subst P; cbv beta. phases_leaf. }
    unfold Xception.download_pretrained_weights. wp_exec.
    eapply wp_mono; [apply download_from_spec|].
    intros r t2 st2 (-> & Hd2 & Hf2 & _).
    wp_exec; subst P; cbv beta; phases_leaf.
Qed.

Lemma steps_run_in_pipeline_order_witness :
  status (run DeepfakeXception ideal_world ∅) = 0%Z /\
  phases (trace (run DeepfakeXception ideal_world ∅)) = pipeline.
Proof.
  split; [vm_compute; reflexivity|].
  apply (steps_run_in_pipeline_order DeepfakeXception ideal_world ∅).
  vm_compute. reflexivity.
Defined.

(** ** The package a run saves *)

(** Looks a key up in a metadata table built by insertions. *)
Ltac lookup_metadata :=
  repeat first [ rewrite lookup_insert_eq
               | rewrite lookup_insert_ne by discriminate ];
  reflexivity.

Ltac package_leaf :=
  cbn [finish status trace uncaught files app disk];
  let H := fresh in
  intros H;
  first
    [ discriminate H
    | eexists; split; [apply lookup_insert_eq|];
      unfold annotated;
      cbn [author license version user_defined_metadata with_author
           with_license with_version with_short_description
           with_user_metadata model_id package_license package_version
           input_size];
      split_and!; try reflexivity; try lookup_metadata;
      try (eexists; split; [eassumption | lookup_metadata]) ].

(** A run that ends with status 0 has saved an annotated package. *)
Lemma run_saves_package (s : script) (w : world) (fs : gmap string MLModel) :
  status (run s w fs) = 0%Z ->
  exists pkg, files (run s w fs) !! output_path s = Some pkg /\
              annotated s w (boot fs) pkg.
Proof.
  pattern (run s w fs).
  match goal with |- ?P0 _ => set (P := P0) end.
  apply wp_run. destruct s; unfold program.
  - wp_exec; subst P; cbv beta; package_leaf.
  - wp_exec. all: subst P; cbv beta. all: package_leaf.
  - wp_exec.
    all: lazymatch goal with
         | |- wp _ _ _ => idtac
         | |- _ => subst P; cbv beta; package_leaf
         end.
    eapply wp_mono; [apply create_xceptionnet_model_fetch|].
    intros [model|e|c] t1 st1 (Hf1 & Hd1 & Hr1); [|clear Hr1|done].
    2: { subst P; cbv beta. package_leaf. }
    unfold Xception.download_pretrained_weights. wp_exec.
    eapply wp_mono; [apply download_from_spec|].
    intros r t2 st2 (-> & Hd2 & Hf2 & _).
    wp_exec. all: subst P; cbv beta. all: package_leaf.
Qed.

(** ** The configuration in the saved package (C7) *)

(** C7, as amended.  A run that ends with status 0 has saved, at the
    script's output path, a package whose author, license and version are
    the script's literals and whose metadata gives the input size.  The
    two SigLIP scripts also record their model identifier under
    "source_model"; the XceptionNet script, which has no model identifier,
    does not write that key at all (it is as the converter left it): it
    records the class labels "Real,Fake", the training data
    "FaceForensics++" and the output format
    "[real_probability, fake_probability]". *)
Theorem saved_package_embeds_configuration (s : script) (w : world)
    (fs : gmap string MLModel) :
  status (run s w fs) = 0%Z ->
  exists pkg, files (run s w fs) !! output_path s = Some pkg /\
    author pkg = "A-IQ App" /\
    license pkg = package_license s /\
    version pkg = package_version s /\
    user_defined_metadata pkg !! "input_size" = Some (str_nat (input_size s)) /\
    match model_id s with
    | Some id => user_defined_metadata pkg !! "source_model" = Some id
    | None =>
        user_defined_metadata pkg !! "source_model"
          = converter_metadata w !! "source_model" /\
        user_defined_metadata pkg !! "class_labels" = Some "Real,Fake" /\
        user_defined_metadata pkg !! "training_data"
          = Some "FaceForensics++" /\
        user_defined_metadata pkg !! "output_format"
          = Some "[real_probability, fake_probability]"
    end.
Proof.
  intros H. destruct (run_saves_package s w fs H)
    as (pkg & Hpkg & Ha & Hl & Hv & Hi & Hm).
  exists pkg. split_and!; try done.
  destruct (model_id s); tauto.
Qed.

Lemma saved_package_embeds_configuration_witness :
  (exists pkg,
     files (run AIDetector ideal_world ∅) !! output_path AIDetector
       = Some pkg /\
     user_defined_metadata pkg !! "source_model"
       = Some "Ateeqq/ai-vs-human-image-detector" /\
     user_defined_metadata pkg !! "input_size" = Some "224") /\
  (exists pkg,
     files (run DeepfakeXception ideal_world ∅) !! output_path DeepfakeXception
       = Some pkg /\
     license pkg = "Research use" /\
     user_defined_metadata pkg !! "input_size" = Some "299" /\
     user_defined_metadata pkg !! "training_data" = Some "FaceForensics++").
Proof.
  split.
  - destruct (saved_package_embeds_configuration AIDetector ideal_world ∅)
      as (pkg & Hpkg & _ & _ & _ & Hi & Hm).
    + vm_compute. reflexivity.
    + exists pkg. split_and!; [exact Hpkg | exact Hm | exact Hi].
  - destruct (saved_package_embeds_configuration DeepfakeXception
                ideal_world ∅)
      as (pkg & Hpkg & _ & Hl & _ & Hi & _ & _ & Ht & _).
    + vm_compute. reflexivity.
    + exists pkg. split_and!; [exact Hpkg | exact Hl | exact Hi | exact Ht].
Defined.

(** The claim as first stated fails: the package the XceptionNet script
    saves in the ideal world has no "source_model" entry. *)
Lemma xception_package_has_no_source_model :
  status (run DeepfakeXception ideal_world ∅) = 0%Z /\
  match files (run DeepfakeXception ideal_world ∅)
          !! output_path DeepfakeXception with
  | Some pkg => user_defined_metadata pkg !! "source_model" = None
  | None => False
  end.
Proof. split; vm_compute; reflexivity. Qed.

(** ** The two deepfake scripts share their output path (C9) *)

(** C9.  Both deepfake scripts have OUTPUT_NAME "DeepfakeDetector" and
    save to "DeepfakeDetector.mlpackage".  When one of them runs to
    completion and then the other does, in either order, the file holds
    the second script's package, which differs from the package the first
    had left there. *)
Theorem deepfake_scripts_overwrite_each_other :
  Deepfake.OUTPUT_NAME = "DeepfakeDetector" /\
  Xception.OUTPUT_NAME = "DeepfakeDetector" /\
  output_path DeepfakeSigLIP = "DeepfakeDetector.mlpackage" /\
  output_path DeepfakeXception = output_path DeepfakeSigLIP /\
  forall (first second : script) (w1 w2 : world) (fs : gmap string MLModel),
    first <> AIDetector -> second <> AIDetector -> first <> second ->
    let o1 := run first w1 fs in
    let o2 := run second w2 (files o1) in
    status o1 = 0%Z -> status o2 = 0%Z ->
    exists pkg1 pkg2,
      files o1 !! "DeepfakeDetector.mlpackage" = Some pkg1 /\
      files o2 !! "DeepfakeDetector.mlpackage" = Some pkg2 /\
      license pkg1 = package_license first /\
      license pkg2 = package_license second /\
      pkg1 <> pkg2.
Proof.
  split_and!; try reflexivity.
  intros s1 s2 w1 w2 fs H1 H2 H12 o1 o2 Ho1 Ho2.
  destruct (run_saves_package s1 w1 fs Ho1) as (pkg1 & Hp1 & _ & Hl1 & _).
  destruct (run_saves_package s2 w2 (files o1) Ho2) as (pkg2 & Hp2 & _ & Hl2 & _).
  exists pkg1, pkg2.
  assert (output_path s1 = "DeepfakeDetector.mlpackage") as E1
    by (clear -H1; destruct s1; done).
  assert (output_path s2 = "DeepfakeDetector.mlpackage") as E2
    by (clear -H2; destruct s2; done).
  rewrite E1 in Hp1. rewrite E2 in Hp2.
  split_and!; try done.
  intros Heq.
  assert (package_license s1 = package_license s2) as E by congruence.
  clearbody o1 o2.
  destruct s1; destruct s2; cbn in E; congruence.
Qed.

Lemma deepfake_scripts_overwrite_each_other_witness :
  exists pkg,
    files (run DeepfakeXception ideal_world
             (files (run DeepfakeSigLIP ideal_world ∅)))
      !! "DeepfakeDetector.mlpackage" = Some pkg /\
    license pkg = "Research use".
Proof.
  destruct deepfake_scripts_overwrite_each_other as (_ & _ & _ & _ & H).
  assert (status (run DeepfakeSigLIP ideal_world ∅) = 0%Z) as Hs1
    by (vm_compute; reflexivity).
  assert (status (run DeepfakeXception ideal_world
                    (files (run DeepfakeSigLIP ideal_world ∅))) = 0%Z) as Hs2
    by (vm_compute; reflexivity).
  destruct (H DeepfakeSigLIP DeepfakeXception ideal_world ideal_world ∅
              ltac:(discriminate) ltac:(discriminate) ltac:(discriminate)
              Hs1 Hs2)
    as (pkg1 & pkg2 & _ & Hp2 & _ & Hl2 & _).
  by exists pkg2.
Defined.

(** ** The class labels (C8) *)

Lemma lookup_each_labels d keys st ls t st' :
  lookup_each d keys st = (Ok ls, t, st') ->
  Forall2 (fun k l => d !! k = Some l) keys ls.
Proof.
  revert ls t st'. induction keys as [|k keys IH]; intros ls t st'; cbn.
  - intros [= <- _ _]. constructor.
  - destruct (d !! k) as [l|] eqn:Hk; [|done].
    unfold mbind, M_bind, bind.
    destruct (lookup_each d keys st) as [[[ls'|e|c] t'] st''] eqn:Heq; try done.
    cbn. intros [= <- _ _]. constructor; [done|]. by eapply IH.
Qed.

Lemma labels_in_order_index d st ls t st' :
  labels_in_order d st = (Ok ls, t, st') ->
  length ls = size d /\
  forall i : nat, (i < size d)%nat ->
    exists l, d !! Z.of_nat i = Some l /\ ls !! i = Some l.
Proof.
  intros H%lookup_each_labels.
  pose proof (Forall2_length _ _ _ H) as Hlen.
  rewrite length_seqZ, Nat2Z.id in Hlen. split; [done|].
  intros i Hi.
  assert (seqZ 0 (Z.of_nat (size d)) !! i = Some (Z.of_nat i)) as Hk.
  { rewrite lookup_seqZ. split; lia. }
  destruct (Forall2_lookup_l _ _ _ _ _ H Hk) as (l & Hl & Hd).
  by exists l.
Qed.

Lemma split_nonempty c s : split c s <> [].
Proof.
  destruct s as [|a s]; cbn; [done|].
  destruct (Ascii.eqb a c); [done|]. by destruct (split c s).
Qed.

Lemma split_app_comma_free x s :
  comma_free x = true ->
  split "," (x +:+ s) =
  match split "," s with
  | h :: t => (x +:+ h) :: t
  | [] => [x]
  end.
Proof.
  induction x as [|a x IH]; cbn [comma_free].
  - intros _. change ("" +:+ s) with s.
    destruct (split "," s) eqn:E; [by apply split_nonempty in E|done].
  - intros [Ha Hx]%andb_prop. apply negb_true_iff in Ha.
    change (String a x +:+ s) with (String a (x +:+ s)). cbn [split].
    rewrite Ha, (IH Hx).
    destruct (split "," s) eqn:E; [by apply split_nonempty in E|done].
Qed.

Lemma append_empty_r s : s +:+ "" = s.
Proof.
  induction s as [|a s IH]; [done|].
  change (String a (s +:+ "") = String a s). by rewrite IH.
Qed.

Lemma join_cons sep x y ls :
  join sep (x :: y :: ls) = x +:+ sep +:+ join sep (y :: ls).
Proof. reflexivity. Qed.

Lemma split_comma s : split "," ("," +:+ s) = "" :: split "," s.
Proof. reflexivity. Qed.

Lemma split_join ls :
  ls <> [] -> forallb comma_free ls = true -> split "," (join "," ls) = ls.
Proof.
  induction ls as [|x ls IH]; [done|]. intros _ [Hx Hls]%andb_prop.
  destruct ls as [|y ls].
  - change (join "," [x]) with x. rewrite <- (append_empty_r x) at 1.
    rewrite split_app_comma_free by done.
    cbn [split]. by rewrite append_empty_r.
  - rewrite join_cons, split_app_comma_free, split_comma, IH by done.
    cbv iota. by rewrite append_empty_r.
Qed.

(** C8.  In both SigLIP-based scripts (the ones with a model identifier),
    a run that ends with status 0 has saved a package whose "class_labels"
    entry is the comma-joined list [ls] of labels, where [ls] has one entry
    per class of [id2label] and its i-th entry is [id2label[i]]: the order
    of the labels is the order of the class indices.  When no label holds a
    comma, splitting the entry at the commas gives [ls] back. *)
Theorem class_labels_follow_class_index (s : script) (w : world)
    (fs : gmap string MLModel) (id : string) :
  model_id s = Some id ->
  status (run s w fs) = 0%Z ->
  exists pkg ls,
    files (run s w fs) !! output_path s = Some pkg /\
    user_defined_metadata pkg !! "class_labels" = Some (join "," ls) /\
    length ls = size (hub_id2label w id) /\
    (forall i : nat, (i < size (hub_id2label w id))%nat ->
       exists l, hub_id2label w id !! Z.of_nat i = Some l /\ ls !! i = Some l) /\
    (forallb comma_free ls = true -> ls <> [] ->
       split "," (join "," ls) = ls).
Proof.
  intros Hid Hst.
  destruct (run_saves_package s w fs Hst) as (pkg & Hpkg & _ & _ & _ & _ & Hm).
  rewrite Hid in Hm. destruct Hm as (_ & ls & Hls & Hcl).
  apply labels_in_order_index in Hls as [Hlen Hidx].
  exists pkg, ls. split_and!; try done.
  intros Hc Hne. by apply split_join.
Qed.

Lemma class_labels_follow_class_index_witness :
  exists pkg,
    files (run DeepfakeSigLIP ideal_world ∅) !! output_path DeepfakeSigLIP
      = Some pkg /\
    user_defined_metadata pkg !! "class_labels" = Some "ai,hum".
Proof.
  destruct (class_labels_follow_class_index DeepfakeSigLIP ideal_world ∅
              Deepfake.MODEL_ID)
    as (pkg & ls & Hpkg & Hcl & Hlen & Hidx & _).
  - reflexivity.
  - vm_compute. reflexivity.
  - exists pkg. split; [exact Hpkg|]. rewrite Hcl. f_equal.
    destruct (Hidx 0%nat) as (l0 & Hd0 & Hl0); [vm_compute; lia|].
    destruct (Hidx 1%nat) as (l1 & Hd1 & Hl1); [vm_compute; lia|].
    vm_compute in Hd0, Hd1. injection Hd0 as <-. injection Hd1 as <-.
    assert (length ls = 2%nat) as Hlen2 by (rewrite Hlen; vm_compute; reflexivity).
    destruct ls as [|a [|b [|c ls]]]; try discriminate Hlen2.
    cbn in Hl0, Hl1. injection Hl0 as ->. injection Hl1 as ->. reflexivity.
Defined.

(** ** The wrappers (C4) *)

Lemma sum_cons a x : sum (a :: x) = (a + sum x)%R.
Proof. reflexivity. Qed.

Lemma sum_nonneg l : Forall (fun v => (0 <= v)%R) l -> (0 <= sum l)%R.
Proof.
  induction 1 as [|v l Hv _ IH]; [cbn; lra|]. rewrite sum_cons. lra.
Qed.

Lemma sum_term l e :
  Forall (fun v => (0 <= v)%R) l -> In e l -> (e <= sum l)%R.
Proof.
  induction 1 as [|v l Hv Hl IH]; [done|]. rewrite sum_cons.
  pose proof (sum_nonneg l Hl).
  intros [->|Hin]; [lra|]. specialize (IH Hin). lra.
Qed.

Lemma sum_map_div (d : R) (y : list R) :
  sum (map (fun v => (v / d)%R) y) = (sum y / d)%R.
Proof.
  induction y as [|a y IH]; [cbn; lra|].
  rewrite map_cons, !sum_cons, IH. lra.
Qed.

Lemma Rabs_bound (x b : R) : (Rabs x <= b)%R -> (- b <= x <= b)%R.
Proof. unfold Rabs. destruct (Rcase_abs x); lra. Qed.

Lemma maximum_in x : x <> [] -> In (maximum x) x.
Proof.
  destruct x as [|r x]; [done|]. intros _. cbn [maximum].
  induction x as [|v x IH]; [by left|]. cbn [fold_right].
  destruct (Rle_dec v (fold_right Rmax r x)) as [Hle|Hgt].
  - rewrite Rmax_right by done.
    destruct IH as [E|Hin]; [by left|right; by right].
  - rewrite Rmax_left by lra. right. by left.
Qed.

Lemma maximum_ge x r : In r x -> (r <= maximum x)%R.
Proof.
  destruct x as [|r0 x]; [done|]. cbn [maximum].
  assert (r0 <= fold_right Rmax r0 x)%R as H0.
  { induction x as [|v x IH]; cbn [fold_right]; [lra|].
    pose proof (Rmax_r v (fold_right Rmax r0 x)). lra. }
  intros [<-|Hin]; [done|]. clear H0.
  induction x as [|v x IH]; [done|]. cbn [fold_right].
  destruct Hin as [->|Hin]; [apply Rmax_l|].
  pose proof (Rmax_r v (fold_right Rmax r0 x)). specialize (IH Hin). lra.
Qed.

Lemma in_finite r x : In r (omap finite x) <-> In (Fin r) x.
Proof.
  rewrite <- !list_elem_of_In, list_elem_of_omap. split.
  - intros ([]&Hin&Hf); try discriminate Hf. by injection Hf as ->.
  - intros Hin. by exists (Fin r).
Qed.

Lemma regular_finite x : regular x = true -> omap finite x <> [].
Proof.
  unfold regular. intros [_ H]%andb_prop. by destruct (omap finite x).
Qed.

Lemma regular_entries x v :
  regular x = true -> In v x -> v = NInf \/ exists r, v = Fin r.
Proof.
  unfold regular. intros [[Hn Hp]%andb_prop _]%andb_prop Hin.
  apply negb_true_iff in Hn, Hp.
  destruct v as [r| | |]; [right; by eexists| |by left|].
  - exfalso. apply not_true_iff_false in Hp. apply Hp.
    apply existsb_exists. by exists PInf.
  - exfalso. apply not_true_iff_false in Hn. apply Hn.
    apply existsb_exists. by exists NaN.
Qed.

Lemma irregular_softmax_row a x :
  regular x = false -> softmax_row a x = map (fun _ => NaN) x.
Proof. unfold softmax_row. by intros ->. Qed.

Section Rounding.
Variables (a : arithmetic) (n : nat) (u g eta : R).
Hypothesis Hstd : standard a n u g eta.
Local Open Scope R_scope.

Lemma exponentials_range x :
  regular x = true -> Forall (fun v => 0 <= v <= 1) (exponentials a x).
Proof.
  intros Hreg. unfold exponentials; cbv zeta. apply Forall_forall.
  intros v [xi [<- Hin]]%list_elem_of_In%in_map_iff.
  destruct (regular_entries x xi Hreg Hin) as [->|[r ->]]; [lra|].
  apply (fexp_range _ _ _ _ _ Hstd).
  rewrite <- (round_0 _ _ _ _ _ Hstd).
  apply (round_monotone _ _ _ _ _ Hstd).
  pose proof (maximum_ge (omap finite x) r) as Hm.
  rewrite in_finite in Hm. specialize (Hm Hin). lra.
Qed.

Lemma exponentials_one x : regular x = true -> In 1 (exponentials a x).
Proof.
  intros Hreg. unfold exponentials; cbv zeta. apply in_map_iff.
  exists (Fin (maximum (omap finite x))). split.
  - rewrite Rminus_diag, (round_0 _ _ _ _ _ Hstd).
    apply (fexp_0 _ _ _ _ _ Hstd).
  - apply in_finite, maximum_in, regular_finite, Hreg.
Qed.

Lemma round_range q : 0 <= q <= 1 -> 0 <= round a q <= 1.
Proof.
  intros [H0 H1]. split.
  - rewrite <- (round_0 _ _ _ _ _ Hstd).
    by apply (round_monotone _ _ _ _ _ Hstd).
  - rewrite <- (round_1 _ _ _ _ _ Hstd).
    by apply (round_monotone _ _ _ _ _ Hstd).
Qed.

Lemma round_sum_error qs :
  Forall (fun q => 0 <= q <= 1) qs ->
  Rabs (sum (map (round a) qs) - sum qs)
  <= u * sum qs + INR (length qs) * eta.
Proof.
  induction 1 as [|q qs Hq _ IH].
  - cbn. rewrite Rminus_diag, Rabs_R0. lra.
  - rewrite map_cons, !sum_cons.
    change (length (q :: qs)) with (S (length qs)). rewrite S_INR.
    pose proof (round_error _ _ _ _ _ Hstd q Hq) as Hr.
    replace (round a q + sum (map (round a) qs) - (q + sum qs))
      with ((round a q - q) + (sum (map (round a) qs) - sum qs)) by lra.
    eapply Rle_trans; [apply Rabs_triang|]. lra.
Qed.

(** The softmax of a regular row of [n] logits. *)
Lemma softmax_row_distribution x :
  length x = n -> regular x = true ->
  distribution n ((u + g) / (1 - g) + INR n * eta) (softmax_row a x).
Proof.
  intros Hlen Hreg. unfold softmax_row. rewrite Hreg. cbv zeta.
  pose proof (exponentials_range x Hreg) as Hrange.
  pose proof (exponentials_one x Hreg) as Hone.
  assert (Forall (fun v => 0 <= v) (exponentials a x)) as Hpos.
  { eapply Forall_impl; [exact Hrange|]. cbn. intros v Hv. lra. }
  assert (length (exponentials a x) = n) as Hlen'
    by (unfold exponentials; by rewrite length_map).
  set (s := fsum a (exponentials a x)).
  pose proof (fsum_term _ _ _ _ _ Hstd (exponentials a x) 1 Hpos Hone)
    as Hs1.
  fold s in Hs1.
  pose proof (sum_term (exponentials a x) 1 Hpos Hone) as HS1.
  pose proof (fsum_error _ _ _ _ _ Hstd (exponentials a x) Hlen' Hpos)
    as Herr.
  fold s in Herr.
  destruct (g_range _ _ _ _ _ Hstd) as [Hg0 Hg1].
  pose proof (u_nonneg _ _ _ _ _ Hstd) as Hu.
  pose proof (eta_nonneg _ _ _ _ _ Hstd) as Heta.
  set (qs := map (fun v => v / s) (exponentials a x)).
  assert (Forall (fun q => 0 <= q <= 1) qs) as Hqs.
  { unfold qs. rewrite Forall_map.
    apply Forall_forall. intros v Hv. cbn.
    rewrite Forall_forall in Hrange, Hpos.
    pose proof (Hrange v Hv) as [Hv0 Hv1].
    apply list_elem_of_In in Hv.
    pose proof (fsum_term _ _ _ _ _ Hstd (exponentials a x) v
                  (proj2 (Forall_forall _ _) Hpos) Hv) as Hvs. fold s in Hvs.
    split.
    - apply Rmult_le_pos; [done|]. apply Rlt_le, Rinv_0_lt_compat. lra.
    - apply Rmult_le_reg_r with s; [lra|].
      unfold Rdiv. rewrite Rmult_assoc, Rinv_l by lra. lra. }
  split; [by rewrite !length_map|].
  exists (map (round a) qs). split_and!.
  - unfold qs. by rewrite !map_map.
  - rewrite Forall_map. eapply Forall_impl; [exact Hqs|].
    cbn. apply round_range.
  - pose proof (round_sum_error qs Hqs) as Hround.
    assert (length qs = n) as Hq by (unfold qs; by rewrite length_map).
    rewrite Hq in Hround.
    assert (sum qs = sum (exponentials a x) / s) as HT by apply sum_map_div.
    set (T := sum (exponentials a x) / s) in *. rewrite HT in Hround.
    set (S := sum (exponentials a x)) in *.
    apply Rabs_bound in Herr.
    assert (T * s = S) as Hmul by (unfold T; field; lra).
    assert (T <= / (1 - g)) as Hup.
    { apply Rmult_le_reg_r with (1 - g); [lra|].
      rewrite Rinv_l by lra.
      apply Rmult_le_reg_r with s; [lra|]. nra. }
    assert (1 - T <= g * / (1 - g)) as Hlow.
    { apply Rmult_le_reg_r with (1 - g); [lra|].
      rewrite Rmult_assoc, Rinv_l by lra.
      assert (T * (1 + g) >= 1) as HT1.
      { apply Rle_ge. apply Rmult_le_reg_r with s; [lra|]. nra. }
      nra. }
    assert (0 <= T) as HT0.
    { unfold T. apply Rmult_le_pos; [lra|].
      apply Rlt_le, Rinv_0_lt_compat. lra. }
    replace (sum (map (round a) qs) - 1)
      with ((sum (map (round a) qs) - T) + (T - 1)) by lra.
    eapply Rle_trans; [apply Rabs_triang|].
    assert (Rabs (T - 1) <= g * / (1 - g)) as HT2.
    { apply Rabs_le. split; [lra|].
      assert (T - 1 <= / (1 - g) - 1) as H1 by lra.
      replace (/ (1 - g) - 1) with (g * / (1 - g)) in H1 by (field; lra).
      exact H1. }
    assert (u * T <= u * / (1 - g)) as HuT by (apply Rmult_le_compat_l; lra).
    replace ((u + g) / (1 - g)) with (u * / (1 - g) + g * / (1 - g))
      by (field; lra).
    lra.
Qed.

Lemma softmax_rows (t : logits_tensor) :
  Forall (fun row => length row = n) t ->
  softmax_post n ((u + g) / (1 - g) + INR n * eta) t (softmax a t).
Proof.
  unfold softmax_post, softmax.
  induction 1 as [|row t Hrow _ IH]; [constructor|].
  rewrite map_cons. constructor; [|exact IH].
  destruct (regular row) eqn:Hreg.
  - split; [|by apply softmax_row_distribution].
    by destruct (softmax_row_distribution row Hrow Hreg).
  - rewrite irregular_softmax_row by done. by rewrite length_map.
Qed.
End Rounding.

(** Exact arithmetic is the case without error. *)
Lemma exact_standard n : standard exact n 0 0 0.
Proof.
  split; cbn [round fexp fsum exact]; unfold id; try lra.
  - done.
  - intros x _. rewrite Rminus_diag, Rabs_R0. lra.
  - apply exp_0.
  - intros y Hy. split; [apply Rlt_le, exp_pos|].
    rewrite <- exp_0. destruct Hy as [Hy| ->]; [|lra].
    apply Rlt_le, exp_increasing, Hy.
  - apply sum_term.
  - intros l _ _. rewrite Rminus_diag, Rabs_R0. lra.
Qed.

(** C4, as amended.  The forward function of each of the three wrappers
    returns the softmax of the model's logits in the floating-point
    arithmetic [a] of the tensor library, row by row.  For every input [x]
    and every model whose logits have [n] entries per row, every row
    returned has [n] entries.  In an arithmetic with relative rounding
    error [u], underflow threshold [eta] and relative error [g] of a
    sum, a row whose logits are regular (none is not-a-number or plus
    infinity, one at least is finite) is returned as [n] numbers between 0
    and 1 whose sum is within (u + g) / (1 - g) + n * eta of 1; any other
    row is returned as not-a-number in every entry. *)
Theorem wrappers_return_probabilities (a : arithmetic) (n : nat)
    (u g eta : R) (x : pixel_tensor) :
  standard a n u g eta ->
  (forall model : pixel_tensor -> ImageClassifierOutput,
     Forall (fun row => length row = n) (logits (model x)) ->
     SigLIP.SigLIPWrapper.forward a model x = softmax a (logits (model x)) /\
     softmax_post n ((u + g) / (1 - g) + INR n * eta)
       (logits (model x)) (SigLIP.SigLIPWrapper.forward a model x)) /\
  (forall model : pixel_tensor -> ImageClassifierOutput,
     Forall (fun row => length row = n) (logits (model x)) ->
     Deepfake.DeepfakeWrapper.forward a model x
       = softmax a (logits (model x)) /\
     softmax_post n ((u + g) / (1 - g) + INR n * eta)
       (logits (model x)) (Deepfake.DeepfakeWrapper.forward a model x)) /\
  (forall model : pixel_tensor -> logits_tensor,
     Forall (fun row => length row = n) (model x) ->
     Xception.XceptionWrapper.forward a model x = softmax a (model x) /\
     softmax_post n ((u + g) / (1 - g) + INR n * eta)
       (model x) (Xception.XceptionWrapper.forward a model x)).
Proof.
  intros Hstd. split_and!; intros model Hall;
    (split; [reflexivity|]); by apply softmax_rows.
Qed.

(** In exact arithmetic the rows for regular logits sum to 1. *)
Lemma wrappers_return_probabilities_witness :
  probabilities 2
    (Xception.XceptionWrapper.forward exact
       (fun _ => [[Fin 0; Fin 0]; [Fin 1; NInf]]) []).
Proof.
  destruct (wrappers_return_probabilities exact 2 0 0 0 [] (exact_standard 2))
    as (_ & _ & H).
  destruct (H (fun _ => [[Fin 0; Fin 0]; [Fin 1; NInf]])) as (_ & Hp).
  { repeat constructor. }
  unfold probabilities.
  replace ((0 + 0) / (1 - 0) + INR 2 * 0)%R with 0%R in Hp by (cbn; lra).
  unfold softmax_post in Hp.
  apply Forall2_cons_1 in Hp as [[_ H1] Hp].
  apply Forall2_cons_1 in Hp as [[_ H2] _].
  assert (regular [Fin 0; Fin 0] = true) as E1 by reflexivity.
  assert (regular [Fin 1; NInf] = true) as E2 by reflexivity.
  rewrite E1 in H1. rewrite E2 in H2.
  unfold Xception.XceptionWrapper.forward, softmax. cbn [map].
  constructor; [exact H1|]. constructor; [exact H2|]. constructor.
Defined.

(** The claim as first stated fails: a model that returns not-a-number
    for one class gets not-a-number for every class, in any arithmetic; the
    row is no probability vector. *)
Lemma nan_logits_give_no_probabilities :
  Xception.XceptionWrapper.forward exact (fun _ => [[NaN; Fin 0]]) []
  = [[NaN; NaN]] /\
  ~ probabilities 2
      (Xception.XceptionWrapper.forward exact (fun _ => [[NaN; Fin 0]]) []).
Proof.
  assert (Xception.XceptionWrapper.forward exact (fun _ => [[NaN; Fin 0]]) []
          = [[NaN; NaN]]) as E by reflexivity.
  split; [exact E|]. rewrite E. intros H.
  apply Forall_cons_1 in H as [(_ & ps & Hps & _) _].
  destruct ps as [|p ps]; discriminate Hps.
Qed.

(** ** The normalization constants (C5, C10) *)

(** C5.  In both SigLIP-based scripts the image input has scale 1/127.5
    and bias -1 on each of the three channels, and over the rationals
    scaling a pixel value [p] by the one and adding the other is exactly
    the SigLIP normalization (p/255 - 0.5)/0.5. *)
Theorem siglip_constants_implement_normalization (input_shape : list nat)
    (c : nat) (p : Q) :
  (c < 3)%nat ->
  (scale (SigLIP.image_input input_shape) == 1 / 127.5)%Q /\
  (scale (Deepfake.image_input input_shape) == 1 / 127.5)%Q /\
  (nth c (bias (SigLIP.image_input input_shape)) 0 == -1)%Q /\
  (nth c (bias (Deepfake.image_input input_shape)) 0 == -1)%Q /\
  (preprocess (SigLIP.image_input input_shape) c p
     == SigLIP.siglip_normalization p)%Q /\
  (preprocess (Deepfake.image_input input_shape) c p
     == Deepfake.siglip_normalization p)%Q.
Proof.
  intros Hc. destruct c as [|[|[|c]]]; [| | |lia];
    unfold preprocess, SigLIP.siglip_normalization,
      Deepfake.siglip_normalization; cbn [SigLIP.image_input
      Deepfake.image_input scale bias nth];
    split_and!; try reflexivity; field.
Qed.

Lemma siglip_constants_implement_normalization_witness :
  (preprocess (SigLIP.image_input [1; 3; 224; 224]%nat) 1 128
     == SigLIP.siglip_normalization 128)%Q.
Proof.
  destruct (siglip_constants_implement_normalization [1; 3; 224; 224]%nat 1 128)
    as (_ & _ & _ & _ & H & _); [lia|exact H].
Defined.

(** The two transforms differ by a multiple of the pixel value. *)
Lemma xception_preprocessing_gap (input_shape : list nat) (c : nat) (p : Q) :
  (c < 3)%nat ->
  (preprocess (Xception.image_input input_shape) c p
   - Xception.imagenet_normalization c p
   == p * (1 / (255 * 0.226) - 1 / (255 * nth c Xception.imagenet_std 0)))%Q.
Proof.
  intros Hc. destruct c as [|[|[|c]]]; [| | |lia];
    unfold preprocess, Xception.imagenet_normalization;
    cbn [Xception.image_input Xception.imagenet_mean Xception.imagenet_std
         scale bias nth]; field.
Qed.

(** C10.  The image input of the XceptionNet script has the one scale
    1/(255*0.226) for all channels and the biases -0.485/0.229,
    -0.456/0.224, -0.406/0.225.  For some channel and pixel value its
    transform differs from the ImageNet normalization
    (p/255 - mean_c)/std_c; indeed on every channel the two differ at every
    pixel value but 0, where they agree. *)
Theorem xception_preprocessing_is_approximate (input_shape : list nat) :
  (scale (Xception.image_input input_shape) == 1 / (255 * 0.226))%Q /\
  bias (Xception.image_input input_shape)
    = [-0.485 / 0.229; -0.456 / 0.224; -0.406 / 0.225]%Q /\
  (exists (c : nat) (p : Q), (c < 3)%nat /\ (0 <= p <= 255)%Q /\
     ~ (preprocess (Xception.image_input input_shape) c p
        == Xception.imagenet_normalization c p)%Q) /\
  (forall (c : nat) (p : Q), (c < 3)%nat -> ~ (p == 0)%Q ->
     ~ (preprocess (Xception.image_input input_shape) c p
        == Xception.imagenet_normalization c p)%Q) /\
  (forall c : nat, (c < 3)%nat ->
     (preprocess (Xception.image_input input_shape) c 0
      == Xception.imagenet_normalization c 0)%Q).
Proof.
  assert (forall (c : nat) (p : Q), (c < 3)%nat -> ~ (p == 0)%Q ->
     ~ (preprocess (Xception.image_input input_shape) c p
        == Xception.imagenet_normalization c p)%Q) as Hdiff.
  { intros c p Hc Hp Heq. apply Hp.
    pose proof (xception_preprocessing_gap input_shape c p Hc) as Hgap.
    rewrite Heq in Hgap.
    assert (p * (1 / (255 * 0.226) - 1 / (255 * nth c Xception.imagenet_std 0))
            == 0)%Q as Hz by (rewrite <- Hgap; ring).
    apply Qmult_integral in Hz as [Hz|Hz]; [exact Hz|].
    exfalso. destruct c as [|[|[|c]]]; [| | |lia]; vm_compute in Hz;
      discriminate Hz. }
  split_and!.
  - reflexivity.
  - reflexivity.
  - exists 0%nat, 255%Q. split_and!; [lia|done|done|].
    apply Hdiff; [lia|done].
  - exact Hdiff.
  - intros c Hc.
    pose proof (xception_preprocessing_gap input_shape c 0 Hc) as Hgap.
    rewrite Qmult_0_l in Hgap.
    apply Qeq_trans
      with (preprocess (Xception.image_input input_shape) c 0
            - Xception.imagenet_normalization c 0
            + Xception.imagenet_normalization c 0)%Q; [ring|].
    rewrite Hgap. ring.
Qed.

Lemma xception_preprocessing_is_approximate_witness :
  ~ (preprocess (Xception.image_input [1; 3; 299; 299]%nat) 2 128
     == Xception.imagenet_normalization 2 128)%Q.
Proof.
  destruct (xception_preprocessing_is_approximate [1; 3; 299; 299]%nat)
    as (_ & _ & _ & H & _).
  apply H; [lia|]. vm_compute. discriminate.
Defined.

(** ** Missing dependencies (C1) *)

Lemma lookup_each_total d keys st :
  Forall (fun k => is_Some (d !! k)) keys ->
  exists ls, lookup_each d keys st = (Ok ls, [], st).
Proof.
  induction 1 as [|k keys [l Hk] _ [ls IH]]; cbn.
  - by eexists.
  - rewrite Hk. unfold mbind, M_bind, bind. rewrite IH. by eexists.
Qed.

Lemma labels_in_order_total d st :
  dense d -> exists ls, labels_in_order d st = (Ok ls, [], st).
Proof.
  intros Hd. apply lookup_each_total, Forall_seqZ. intros k Hk.
  replace k with (Z.of_nat (Z.to_nat k)) by lia. apply Hd. lia.
Qed.








(** * Further properties *)

Lemma wp_and {A} (m : M A) st
    (Q1 Q2 : result A -> list event -> state -> Prop) :
  wp m st Q1 -> wp m st Q2 -> wp m st (fun r t st' => Q1 r t st' /\ Q2 r t st').
Proof. unfold wp. auto. Qed.

Lemma wp_eq {A} (m : M A) st r t st'
    (Q : result A -> list event -> state -> Prop) :
  m st = (r, t, st') -> wp m st Q -> Q r t st'.
Proof. unfold wp. by intros ->. Qed.

Lemma in_prints line t : In (Stdout line) t -> prints line t = true.
Proof.
  intros H. apply existsb_exists. exists (Stdout line).
  split; [done|]. apply String.eqb_refl.
Qed.

Lemma prints_in line t : prints line t = true -> In (Stdout line) t.
Proof.
  intros ([l|c] & Hin & Hl)%existsb_exists; [|done].
  by apply String.eqb_eq in Hl as ->.
Qed.

Lemma prints_false line t : prints line t = false -> ~ In (Stdout line) t.
Proof. intros H Hin%in_prints. congruence. Qed.


(** ** The list of class labels *)

Lemma lookup_each_raises d keys st e t st' :
  lookup_each d keys st = (Raise e, t, st') ->
  exists j k, keys !! j = Some k /\ e = KeyError k /\ d !! k = None /\
    t = [] /\ st' = st /\
    forall j' k', (j' < j)%nat -> keys !! j' = Some k' -> is_Some (d !! k').
Proof.
  revert e t st'. induction keys as [|k keys IH]; intros e t st'; cbn.
  - intros [=].
  - destruct (d !! k) as [l|] eqn:Hk.
    + unfold mbind, M_bind, bind.
      destruct (lookup_each d keys st) as [[[ls|e'|c] t'] st''] eqn:Heq;
        cbn; try (intros [=]; fail).
      intros [= <- <- <-].
      destruct (IH _ _ _ eq_refl) as (j & k0 & Hj & -> & Hk0 & -> & -> & Hbefore).
      exists (S j), k0. split_and!; try done.
      intros [|j'] k' Hlt Hk'; cbn in Hk'.
      * injection Hk' as <-. by eexists.
      * apply (Hbefore j'); [lia|done].
    + intros [= <- <- <-]. exists 0%nat, k. split_and!; try done.
      intros j' k' Hlt. lia.
Qed.

(** A dense [id2label] has no key outside [0 .. len - 1]. *)
Lemma dense_dom d k :
  dense d -> is_Some (d !! k) -> (0 <= k < Z.of_nat (size d))%Z.
Proof.
  intros Hd Hk.
  set (n := size d).
  set (S := list_to_set (seqZ 0 (Z.of_nat n)) : gset Z).
  assert (S ⊆ dom d) as Hsub.
  { intros i Hi. apply elem_of_list_to_set, elem_of_seqZ in Hi.
    apply elem_of_dom. replace i with (Z.of_nat (Z.to_nat i)) by lia.
    apply Hd. lia. }
  assert (size S = n) as HS.
  { unfold S. rewrite size_list_to_set by apply NoDup_seqZ.
    rewrite length_seqZ. lia. }
  assert (size (dom d) = n) as HD by apply size_dom.
  assert (S ≡ dom d) as Heq.
  { apply set_subseteq_size_equiv; [done|]. lia. }
  apply elem_of_dom in Hk. apply Heq in Hk.
  apply elem_of_list_to_set, elem_of_seqZ in Hk. lia.
Qed.

Lemma labels_in_order_dense d st ls t st' :
  labels_in_order d st = (Ok ls, t, st') -> dense d.
Proof.
  intros H i Hi.
  destruct (labels_in_order_index d st ls t st' H) as (_ & Hidx).
  destruct (Hidx i Hi) as (l & Hl & _). by eexists.
Qed.

(** X1.  The list comprehension [[id2label[i] for i in
    range(len(id2label))]] drops no label: when it returns, every entry
    [k : l] of [id2label] has [0 <= k < len(id2label)] and [l] is the
    [k]-th element of the list; the list has as many elements as
    [id2label] has entries, and the computation has printed nothing and
    changed nothing. *)
Theorem labels_in_order_complete (d : gmap Z string) (st : state)
    (ls : list string) (t : list event) (st' : state) :
  labels_in_order d st = (Ok ls, t, st') ->
  t = [] /\ st' = st /\ length ls = size d /\
  forall k l, d !! k = Some l ->
    (0 <= k < Z.of_nat (size d))%Z /\ ls !! Z.to_nat k = Some l.
Proof.
  intros H.
  pose proof (labels_in_order_dense _ _ _ _ _ H) as Hd.
  destruct (labels_in_order_index _ _ _ _ _ H) as (Hlen & Hidx).
  destruct (labels_in_order_total d st Hd) as (ls' & H').
  rewrite H' in H. injection H as <- <- <-.
  split_and!; try done.
  intros k l Hk.
  assert (0 <= k < Z.of_nat (size d))%Z as Hr by (apply dense_dom; eauto).
  split; [done|].
  destruct (Hidx (Z.to_nat k)) as (l' & Hl' & Hls); [lia|].
  rewrite Z2Nat.id in Hl' by lia. congruence.
Qed.

Lemma labels_in_order_complete_witness :
  ["ai"; "hum"] !! Z.to_nat 1 = Some "hum".
Proof.
  destruct (labels_in_order_complete (<[0%Z := "ai"]> (<[1%Z := "hum"]> ∅))
              (boot ∅) ["ai"; "hum"] [] (boot ∅)) as (_ & _ & _ & Hk).
  - vm_compute. reflexivity.
  - destruct (Hk 1%Z "hum") as (_ & Hl); [vm_compute; reflexivity|exact Hl].
Defined.

(** When the comprehension raises, it is at the smallest missing index. *)
Lemma labels_in_order_raises d st e t st' :
  labels_in_order d st = (Raise e, t, st') ->
  exists i : nat,
    e = KeyError (Z.of_nat i) /\ (i < size d)%nat /\
    d !! Z.of_nat i = None /\
    (forall j : nat, (j < i)%nat -> is_Some (d !! Z.of_nat j)) /\
    t = [] /\ st' = st.
Proof.
  intros H.
  destruct (lookup_each_raises _ _ _ _ _ _ H)
    as (j & k & Hj & -> & Hk & -> & -> & Hbefore).
  apply lookup_seqZ in Hj as [-> Hlt]. rewrite Z.add_0_l in *.
  exists j. split_and!; [done|lia|done| |done|done].
  intros j' Hj'. apply (Hbefore j'); [done|].
  rewrite lookup_seqZ. split; lia.
Qed.

(** X2.  When [id2label] lacks one of the keys [0 .. len(id2label) - 1]
    (its keys are not the class indices), the list comprehension raises
    [KeyError] for the smallest missing index, having printed nothing and
    changed nothing. *)
Theorem labels_in_order_first_missing (d : gmap Z string) (st : state) :
  ~ dense d ->
  exists i : nat,
    labels_in_order d st = (Raise (KeyError (Z.of_nat i)), [], st) /\
    (i < size d)%nat /\ d !! Z.of_nat i = None /\
    forall j : nat, (j < i)%nat -> is_Some (d !! Z.of_nat j).
Proof.
  intros Hnd.
  destruct (lookup_each_pure d (seqZ 0 (Z.of_nat (size d))) st)
    as [[ls H]|[k H]].
  - exfalso. apply Hnd. by eapply labels_in_order_dense.
  - destruct (labels_in_order_raises d st _ _ _ H)
      as (i & [= ->] & Hlt & Hnone & Hbefore & _).
    exists i. by split_and!.
Qed.

Lemma labels_in_order_first_missing_witness :
  exists i : nat,
    labels_in_order (<[0%Z := "real"]> (<[2%Z := "fake"]> ∅)) (boot ∅)
    = (Raise (KeyError (Z.of_nat i)), [], boot ∅) /\ i = 1%nat.
Proof.
  destruct (labels_in_order_first_missing
              (<[0%Z := "real"]> (<[2%Z := "fake"]> ∅)) (boot ∅))
    as (i & H & Hlt & Hnone & Hbefore).
  - intros Hd. destruct (Hd 1%nat) as [l Hl]; [vm_compute; lia|].
    vm_compute in Hl. discriminate Hl.
  - exists i. split; [exact H|].
    vm_compute in Hlt.
    destruct i as [|[|i]]; [vm_compute in Hnone; discriminate Hnone|reflexivity|lia].
Defined.

(** Gives up a path on which something fails although all is well, or on
    which the labels are found although one is missing. *)
Ltac prune_sparse Hinst Hno Hnd :=
  idtac;
  match goal with
  | H : installed _ _ = false |- _ => rewrite Hinst in H; discriminate H
  | H : fails _ _ = Some _ |- _ => rewrite Hno in H; discriminate H
  | H : labels_in_order _ _ = (Ok _, _, _) |- _ =>
      apply Hnd; eapply labels_in_order_dense; exact H
  end.

(** X3.  When the hub model's [id2label] lacks one of the indices
    [0 .. len(id2label) - 1], each of the two SigLIP-based scripts, with
    everything installed and no library call raising, ends with status 1
    on the uncaught [KeyError] of the smallest missing index: it has
    fetched, wrapped and traced the model but never calls the converter,
    and it saves no package. *)
Theorem sparse_labels_abort_conversion (s : script) (w : world)
    (fs : gmap string MLModel) (id : string) :
  model_id s = Some id ->
  (forall lib, installed w lib = true) -> (forall c, fails w c = None) ->
  ~ dense (hub_id2label w id) ->
  exists i : nat,
    uncaught (run s w fs) = Some (KeyError (Z.of_nat i)) /\
    hub_id2label w id !! Z.of_nat i = None /\
    (forall j : nat, (j < i)%nat -> is_Some (hub_id2label w id !! Z.of_nat j)) /\
    status (run s w fs) = 1%Z /\ files (run s w fs) = fs /\
    phases (trace (run s w fs)) = [Fetch; Wrap; Trace].
Proof.
  intros Hid Hinst Hno Hnd.
  pattern (run s w fs).
  match goal with |- ?P0 _ => set (P := P0) end.
  apply wp_run. destruct s; try discriminate Hid;
    injection Hid as <-; unfold program.
  all: wp_exec_with ltac:(prune_sparse Hinst Hno Hnd).
  all: subst P; cbv beta; cbn [finish status trace uncaught files disk boot].
  all: match goal with
       | H : labels_in_order _ _ = (Raise _, _, _) |- _ =>
           destruct (labels_in_order_raises _ _ _ _ _ H)
             as (n & [= ->] & _ & Hnone & Hbefore & _)
       end.
  all: exists n; split_and!;
    [ reflexivity | exact Hnone | exact Hbefore | reflexivity | reflexivity
    | vm_compute; reflexivity ].
Qed.

Lemma sparse_labels_abort_conversion_witness :
  uncaught (run AIDetector sparse_world ∅) = Some (KeyError 1).
Proof.
  destruct (sparse_labels_abort_conversion AIDetector sparse_world ∅
              SigLIP.MODEL_ID)
    as (i & Hu & Hnone & Hbefore & _); [reflexivity..| |].
  - intros Hd. destruct (Hd 1%nat) as [l Hl]; [vm_compute; lia|].
    vm_compute in Hl. discriminate Hl.
  - rewrite Hu. do 2 f_equal.
    destruct i as [|[|i]]; [vm_compute in Hnone; discriminate Hnone|done|].
    destruct (Hbefore 1%nat) as [l Hl]; [lia|].
    vm_compute in Hl. discriminate Hl.
Defined.

(** ** Building the network *)

Lemma create_xceptionnet_model_post w st :
  wp (Xception.create_xceptionnet_model w) st (fun r t st' =>
    match r with
    | Ok model =>
        disk st' = disk st /\ heap st !! model = None /\
        (forall l, l <> model -> heap st' !! l = heap st !! l) /\
        exists n, heap st' !! model = Some n /\
          num_classes n = 2%nat /\ aux_logits n = false /\
          params n = ImageNet /\ training n = true /\
          (arch n = "xception" /\ installed w "timm" = true /\
           prints "timm not available, using torchvision Inception as fallback" t
             = false
           \/
           arch n = "inception_v3" /\ installed w "torchvision" = true /\
           prints "timm not available, using torchvision Inception as fallback" t
             = true)
    | Raise e => disk st' = disk st
    | SysExit _ => False
    end).
Proof.
  unfold Xception.create_xceptionnet_model. wp_exec.
  all: cbn [app disk heap].
  all: try reflexivity.
  all: split_and!;
    [ done
    | apply not_elem_of_dom, is_fresh
    | intros l Hl; by rewrite ?lookup_alter_ne, lookup_insert_ne by done
    | eexists; split;
      [ rewrite ?lookup_alter_eq, lookup_insert_eq; reflexivity |];
      split_and!; try reflexivity;
      first [ left; split_and!; [reflexivity | assumption | reflexivity]
            | right; split_and!; [reflexivity | assumption | reflexivity] ] ].
Qed.



(** X5.  The fallback needs torchvision: with neither timm nor
    torchvision installed, [create_xceptionnet_model] raises the
    ImportError of torchvision after the fallback line, and the script,
    which does not catch it, ends with status 1 and saves no package. *)
Theorem fallback_needs_torchvision (w : world) (fs : gmap string MLModel) :
  installed w "timm" = false -> installed w "torchvision" = false ->
  (forall st,
     Xception.create_xceptionnet_model w st
     = (Raise (ImportError "torchvision"),
        [Stdout "Creating XceptionNet model...";
         Stdout "timm not available, using torchvision Inception as fallback"],
        st)) /\
  ((forall lib, In lib (toplevel_imports DeepfakeXception) ->
      installed w lib = true) ->
   status (run DeepfakeXception w fs) = 1%Z /\
   uncaught (run DeepfakeXception w fs) = Some (ImportError "torchvision") /\
   files (run DeepfakeXception w fs) = fs).
Proof.
  intros Htimm Htv.
  assert (forall st,
     Xception.create_xceptionnet_model w st
     = (Raise (ImportError "torchvision"),
        [Stdout "Creating XceptionNet model...";
         Stdout "timm not available, using torchvision Inception as fallback"],
        st)) as Hcreate.
  { intros st.
    unfold Xception.create_xceptionnet_model, try_except, mbind, M_bind, bind,
      import_, print. rewrite Htimm, Htv. reflexivity. }
  split; [exact Hcreate|].
  intros Hinst.
  assert (installed w "coremltools" = true) as Hc by (apply Hinst; cbn; tauto).
  assert (installed w "numpy" = true) as Hn by (apply Hinst; cbn; tauto).
  assert (installed w "torch" = true) as Ht by (apply Hinst; cbn; tauto).
  assert (installed w "PIL" = true) as Hp by (apply Hinst; cbn; tauto).
  unfold run, program, Xception.script, Xception.main, try_except,
    mbind, M_bind, bind, import_, print.
  rewrite Hc, Hn, Ht, Hp. cbn [mret M_ret ret].
  rewrite Hcreate. cbn. done.
Qed.

Lemma fallback_needs_torchvision_witness :
  status (run DeepfakeXception (without ["timm"; "torchvision"] ideal_world) ∅)
  = 1%Z.
Proof.
  destruct (fallback_needs_torchvision
              (without ["timm"; "torchvision"] ideal_world) ∅) as [_ H];
    [reflexivity..|].
  destruct H as (Hs & _); [|exact Hs].
  intros lib Hlib. cbn in Hlib.
  repeat (destruct Hlib as [<-|Hlib]; [reflexivity|]). contradiction.
Defined.

(** ** The download loop and the heap *)

Lemma with_params_same n : with_params (params n) n = n.
Proof. by destruct n. Qed.

Lemma written_from_refl w urls old : written_from w urls old old.
Proof. induction urls as [|url urls IH]; [done|by left]. Qed.

Lemma reweighted_refl w urls model h : reweighted w urls model h h.
Proof.
  split_and!; [done..|]. intros n Hn. exists (params n).
  rewrite with_params_same. split; [done|apply written_from_refl].
Qed.

Lemma reweighted_skip w url urls model h h' :
  reweighted w urls model h h' -> reweighted w (url :: urls) model h h'.
Proof.
  intros (Hother & Hnone & Hmodel). split_and!; [done..|].
  intros n Hn. destruct (Hmodel n Hn) as (p & Hp & Hfrom).
  exists p. split; [done|by left].
Qed.

(** One attempt that writes the parameters, then the rest of the loop. *)
Lemma reweighted_write w url urls model p0 h h' :
  (forall old p, written_from w urls (p0 old) p ->
     written_from w (url :: urls) old p) ->
  reweighted w urls model
    (alter (fun n => with_params (p0 (params n)) n) model h) h' ->
  reweighted w (url :: urls) model h h'.
Proof.
  intros Hp0 (Hother & Hnone & Hmodel). split_and!.
  - intros l Hl. by rewrite Hother, lookup_alter_ne.
  - intros Hn. apply Hnone. by rewrite lookup_alter_eq, Hn.
  - intros n Hn.
    destruct (Hmodel (with_params (p0 (params n)) n))
      as (p & Hp & Hfrom); [by rewrite lookup_alter_eq, Hn|].
    exists p. split; [done|]. by apply Hp0.
Qed.

Lemma written_loaded w url urls old p :
  Xception.load_failure w url = None ->
  written_from w urls (Loaded (state_dict_of w url)) p ->
  written_from w (url :: urls) old p.
Proof. intros H Hp. right. by left. Qed.

Lemma written_partly w url urls e old p :
  Xception.fetch_failure w url = None ->
  fails w (load_state_dict (state_dict_of w url)) = Some e ->
  written_from w urls (Partly (state_dict_of w url) old) p ->
  written_from w (url :: urls) old p.
Proof. intros Hf He Hp. right. right. split_and!; [done|by eexists|done]. Qed.


(** The loop changes nothing but the parameters of its network. *)
Lemma download_from_heap w urls model st :
  wp (Xception.download_from w urls model) st (fun r t st' =>
    reweighted w urls model (heap st) (heap st')).
Proof.
  revert st. induction urls as [|url urls IH]; intros st;
    cbn [Xception.download_from].
  - wp_exec. apply reweighted_refl.
  - wp_step. wp_step. unfold Xception.try_url. wp_exec.
    all: try (eapply wp_mono; [apply IH|]; intros r t' st' Hpost;
              cbn [heap] in Hpost).
    all: first
      [ by apply reweighted_skip
      | apply (reweighted_write w url urls model
                 (fun old => Partly (state_dict_of w url) old));
        [ intros old p; eapply written_partly; [load_succeeds|eassumption]
        | exact Hpost ]
      | apply (reweighted_write w url urls model
                 (fun _ => Loaded (state_dict_of w url)));
        [ intros old p; apply written_loaded; load_succeeds
        | cbn [heap]; first [exact Hpost | apply reweighted_refl] ] ].
Qed.



Lemma load_failure_None w url :
  Xception.load_failure w url = None ->
  fails w (NamedTemporaryFile url) = None /\
  fails w (urlretrieve url (tmp_name w url)) = None /\
  fails w (torch_load (tmp_name w url)) = None /\
  fails w (load_state_dict (state_dict_of w url)) = None.
Proof.
  unfold Xception.load_failure, Xception.fetch_failure, state_dict_of.
  cbv zeta.
  destruct (fails w (NamedTemporaryFile url)); [done|].
  destruct (fails w (urlretrieve _ _)); [done|].
  destruct (fails w (torch_load _)); [done|].
  done.
Qed.

(** Gives up a path on which a call raises that is known to return, or
    returns although it is known to raise. *)
Ltac prune_known :=
  match goal with
  | H : fails ?w ?c = Some _, H' : fails ?w ?c = None |- _ =>
      rewrite H' in H; discriminate H
  end.





(** X8.  When the state dict of [url] has been loaded and removing the
    temporary file then raises, the loop treats the URL as failed: it logs
    the exception and goes on.  If for every later URL the download or
    [torch.load] fails, it prints the warning that it proceeds with the
    ImageNet baseline, although the network it returns holds the
    parameters loaded from [url]. *)
Theorem unlink_failure_keeps_loaded_weights (w : world) (url : string)
    (rest : list string) (model : nat) (st : state) (e : exn) :
  Xception.load_failure w url = None ->
  fails w (os_unlink (tmp_name w url)) = Some e ->
  (forall u, In u rest -> Xception.fetch_failure w u <> None) ->
  exists t st',
    Xception.download_from w (url :: rest) model st = (Ok model, t, st') /\
    heap st' = alter (with_params (Loaded (state_dict_of w url))) model
                 (heap st) /\
    prints "Successfully loaded pretrained deepfake detection weights!" t
      = true /\
    In (Stdout ("Could not load from " +:+ url +:+ ": " +:+ str e)) t /\
    exists t0, t = (t0 ++ Xception.baseline_warning)%list.
Proof.
  intros Hload Hunlink Hrest.
  apply load_failure_None in Hload as (H1 & H2 & H3 & H4).
  unfold state_dict_of in *.
  enough (wp (Xception.download_from w (url :: rest) model) st
            (fun r t st' =>
               r = Ok model /\
               heap st' = alter (with_params
                   (Loaded (Xception.unwrap (checkpoint w (tmp_name w url)))))
                   model (heap st) /\
               prints "Successfully loaded pretrained deepfake detection weights!"
                 t = true /\
               In (Stdout ("Could not load from " +:+ url +:+ ": " +:+ str e)) t /\
               exists t0, t = (t0 ++ Xception.baseline_warning)%list)) as H.
  { unfold wp in H.
    destruct (Xception.download_from w (url :: rest) model st) as [[r t] st'].
    cbn in H. destruct H as (-> & H). by exists t, st'. }
  cbn [Xception.download_from].
  wp_step. wp_step. unfold Xception.try_url.
  wp_exec_with ltac:(idtac; prune_known).
  eapply wp_mono; [apply download_from_spec|].
  intros r t' st' (-> & _ & _ & _ & _ & Hwarn & Hheap).
  destruct Hwarn as (t0 & ->).
  { intros u Hu Hnone. apply (Hrest u Hu).
    unfold Xception.load_failure in Hnone.
    by destruct (Xception.fetch_failure w u). }
  rewrite (Hheap Hrest).
  cbn [app heap] in *.
  match goal with
  | H : fails w (os_unlink _) = Some ?e' |- _ =>
      tryif constr_eq e' e then fail
      else (assert (e' = e) as -> by congruence)
  end.
  split_and!; [done|done|done|find_in|].
  eexists (_ :: _ :: _ :: _ :: _ :: _ :: _ :: _ :: t0). reflexivity.
Qed.

Lemma unlink_failure_keeps_loaded_weights_witness :
  exists t st',
    Xception.download_from locked_world Xception.weight_urls 0
      (Xception.create_xceptionnet_model locked_world (boot ∅)).2
    = (Ok 0%nat, t, st') /\
    heap st' !! 0%nat
    = Some {| arch := "xception"; num_classes := 2; aux_logits := false;
              params := Loaded (Tensors "xception_ff"); training := true |} /\
    exists t0, t = (t0 ++ Xception.baseline_warning)%list.
Proof.
  destruct (unlink_failure_keeps_loaded_weights locked_world
              "https://github.com/kaushikram31/deepfake-detection-XceptionNet/raw/main/models/xception_ff.pth"
              [] 0 (Xception.create_xceptionnet_model locked_world (boot ∅)).2
              (Exception "Permission denied"))
    as (t & st' & H & Hh & _ & _ & Hw).
  - reflexivity.
  - reflexivity.
  - intros u [].
  - exists t, st'. split_and!; [exact H| |exact Hw].
    rewrite Hh. vm_compute. reflexivity.
Defined.

(** ** What every run does *)

Lemma observe_app t1 t2 :
  observe (t1 ++ t2) = (observe t1 ++ observe t2)%list.
Proof. apply List.filter_app. Qed.

Lemma prints_observe line t :
  In line marker_lines -> prints line (observe t) = prints line t.
Proof.
  intros Hl. induction t as [|ev t IH]; [done|].
  unfold observe, prints in *. cbn [List.filter existsb].
  destruct (notable ev) eqn:Hev; cbn [existsb]; rewrite IH; [done|].
  destruct ev as [l|c]; [|done]. cbn [notable] in Hev.
  destruct (String.eqb l line) eqn:E; [|done].
  apply String.eqb_eq in E as ->.
  assert (existsb (String.eqb line) marker_lines = true) as Hin; [|congruence].
  apply existsb_exists. exists line. split; [done|apply String.eqb_refl].
Qed.

Lemma checks_observe t : checks (observe t) = checks t.
Proof.
  induction t as [|ev t IH]; [done|].
  unfold observe, checks in *. cbn [List.filter].
  destruct (notable ev) eqn:Hev; cbn [omap list_omap]; rewrite IH; [done|].
  by destruct ev as [l|[]].
Qed.

Lemma saving_observe path t : saving path (observe t) = saving path t.
Proof.
  induction t as [|ev t IH]; [done|].
  unfold observe, saving in *. cbn [List.filter existsb].
  destruct (notable ev) eqn:Hev; cbn [existsb]; rewrite IH; [done|].
  by destruct ev as [l|[]].
Qed.

Lemma saving_in path t :
  saving path t = true <-> In (Called (mlmodel_save path)) t.
Proof.
  unfold saving. rewrite existsb_exists. split.
  - intros ([l|[]] & Hin & H); try discriminate H.
    by apply String.eqb_eq in H as ->.
  - intros Hin. eexists. split; [exact Hin|]. apply String.eqb_refl.
Qed.

(** The fetch step of the XceptionNet script has no notable event. *)
Lemma create_xceptionnet_model_observe w st :
  wp (Xception.create_xceptionnet_model w) st (fun r t st' => observe t = []).
Proof.
  unfold Xception.create_xceptionnet_model. wp_exec.
  all: vm_compute; reflexivity.
Qed.

Lemma download_from_observe w urls model st :
  wp (Xception.download_from w urls model) st (fun r t st' => observe t = []).
Proof.
  revert st. induction urls as [|url urls IH]; intros st;
    cbn [Xception.download_from].
  - wp_exec. vm_compute. reflexivity.
  - wp_step. wp_step. unfold Xception.try_url. wp_exec.
    all: try (eapply wp_mono; [apply IH|]; intros r t' st' Hob;
              cbn [app];
              lazymatch goal with
              | |- observe ?l = _ =>
                  let p := prefix_upto l t' in change l with (p ++ t')%list
              end;
              rewrite observe_app, Hob, app_nil_r).
    all: vm_compute; reflexivity.
Qed.

Lemma wp_report_size_deepfake w path st Q :
  is_Some (disk st !! path) ->
  wp (ext w (rglob_sizes path);;
      print (nl +:+ "Model size: " +:+ fmt w "size_mb:.1f" +:+ " MB")) st Q ->
  wp (Deepfake.report_size w path) st Q.
Proof.
  intros Hp H. unfold Deepfake.report_size.
  apply wp_bind, wp_path_exists. by rewrite bool_decide_eq_true_2.
Qed.

Lemma wp_report_size_xception w path st Q :
  is_Some (disk st !! path) ->
  wp (ext w (rglob_sizes path);;
      print (nl +:+ "Model size: " +:+ fmt w "size_mb:.1f" +:+ " MB")) st Q ->
  wp (Xception.report_size w path) st Q.
Proof.
  intros Hp H. unfold Xception.report_size.
  apply wp_bind, wp_path_exists. by rewrite bool_decide_eq_true_2.
Qed.

(** Symbolic execution that knows that the saved package is there. *)
Ltac wp_step_saved :=
  lazymatch goal with
  | |- wp (Deepfake.report_size _ _) _ _ =>
      apply wp_report_size_deepfake;
      [cbn [disk]; rewrite lookup_insert_eq; by eexists|]
  | |- wp (Xception.report_size _ _) _ _ =>
      apply wp_report_size_xception;
      [cbn [disk]; rewrite lookup_insert_eq; by eexists|]
  | |- _ => wp_step
  end.
Ltac wp_exec_saved := repeat wp_step_saved.

(** A trace given by conses and appends, as an append of explicit
    lists and unknown parts. *)
Ltac split_trace l :=
  lazymatch l with
  | ?a :: ?r =>
      let r' := split_trace r in
      lazymatch r' with
      | (?p ++ ?q)%list =>
          lazymatch p with
          | _ :: _ => constr:(((a :: p) ++ q)%list)
          | _ => constr:(([a] ++ r')%list)
          end
      | _ :: _ => constr:(a :: r')
      | [] => constr:([a])
      | _ => constr:(([a] ++ r')%list)
      end
  | (?t ++ ?r)%list => let r' := split_trace r in constr:((t ++ r')%list)
  | _ => l
  end.

Ltac saved_package_leaf :=
  eexists; split_and!;
  [ cbn [disk boot];
    repeat match goal with
           | H : disk _ = disk _ |- _ => rewrite H; clear H
           end; reflexivity
  | unfold annotated;
    cbn [author license version user_defined_metadata with_author
         with_license with_version with_short_description
         with_user_metadata model_id package_license package_version
         input_size];
    split_and!; try reflexivity; try lookup_metadata;
    try (eexists; split; [eassumption | lookup_metadata])
  | unfold converted;
    cbn [input_description output_name minimum_deployment_target
         convert_to compute_precision user_defined_metadata
         with_author with_license with_version with_short_description
         with_user_metadata image_input_of output_of metadata_keys];
    split_and!; try reflexivity;
    let k := fresh "k" in let Hk := fresh "Hk" in
    intros k Hk; cbn [In] in Hk;
    rewrite !lookup_insert_ne by (intros <-; tauto); reflexivity
  | cbn [expected_checks output_path app name input_description
         with_author with_license with_version with_short_description
         with_user_metadata SigLIP.image_input Deepfake.image_input
         Xception.image_input];
    repeat first [apply prefix_nil | apply prefix_cons]
  | let Hne := fresh in
    intros Hne;
    first [exfalso; apply Hne; reflexivity | discriminate]
  | reflexivity ].

Ltac sound_leaf :=
  unfold sound; cbn [finish status trace uncaught files app];
  let ob := fresh "ob" in
  let Hob := fresh "Hob" in
  lazymatch goal with
  | |- verdict _ _ _ _ _ _ (observe ?l) =>
      let l' := split_trace l in
      remember (observe l) as ob eqn:Hob;
      change l with l' in Hob
  end;
  rewrite ?observe_app in Hob;
  repeat match goal with
         | Hq : observe _ = [] |- _ => rewrite Hq in Hob; clear Hq
         end;
  vm_compute in Hob; subst ob;
  unfold verdict;
  split;
  [ first [left; split; reflexivity | right; split; [reflexivity|discriminate]]
  | split; [reflexivity|]; split; [reflexivity|]; split; [reflexivity|];
    cbv iota;
    first
      [ split_and!;
        [ reflexivity
        | reflexivity
        | cbn [disk boot];
          repeat match goal with
                 | H : disk _ = disk _ |- _ => rewrite H; clear H
                 end; reflexivity ]
      | saved_package_leaf ] ].

(** Every path of every script, followed to its end. *)
Lemma run_sound (s : script) (w : world) (fs : gmap string MLModel) :
  sound s w fs (run s w fs).
Proof.
  pattern (run s w fs).
  match goal with |- ?P0 _ => set (P := P0) end.
  apply wp_run. destruct s; unfold program.
  - wp_exec_saved; subst P; cbv beta; sound_leaf.
  - wp_exec_saved; subst P; cbv beta; sound_leaf.
  - wp_exec_saved.
    all: lazymatch goal with
         | |- wp _ _ _ => idtac
         | |- _ => subst P; cbv beta; sound_leaf
         end.
    eapply wp_mono;
      [apply wp_and;
       [apply create_xceptionnet_model_fetch
       |apply create_xceptionnet_model_observe]|].
    intros [model|e|c] t1 st1 ((_ & Hd1 & Hr1) & Hob1); [|clear Hr1|done].
    2: { subst P; cbv beta. sound_leaf. }
    unfold Xception.download_pretrained_weights. wp_exec_saved.
    eapply wp_mono;
      [apply wp_and; [apply download_from_spec|apply download_from_observe]|].
    intros r t2 st2 ((-> & Hd2 & _) & Hob2).
    wp_exec_saved; subst P; cbv beta; sound_leaf.
Qed.

Lemma in_checks c t : In c (checks t) -> In (Called c) t.
Proof.
  intros Hin%list_elem_of_In. unfold checks in Hin.
  apply list_elem_of_omap in Hin as (ev & Hev%list_elem_of_In & Hc).
  destruct ev as [|[]]; try discriminate Hc.
  all: by injection Hc as <-.
Qed.

(** What [run_sound] says, on the trace itself. *)
Lemma run_verdict (s : script) (w : world) (fs : gmap string MLModel) :
  verdict s w fs (status (run s w fs)) (uncaught (run s w fs))
    (files (run s w fs)) (trace (run s w fs)).
Proof.
  pose proof (run_sound s w fs) as H. unfold sound, verdict in *.
  rewrite !prints_observe, !checks_observe, !saving_observe in H
    by (cbn; tauto).
  exact H.
Qed.

(** X10.  The dependency check at the start of [main] never fires: in no
    world does a script print "ERROR: coremltools not installed" or leave
    through [sys.exit].  A run ends with status 0, or with status 1 on an
    uncaught exception. *)
Theorem dependency_check_never_fires (s : script) (w : world)
    (fs : gmap string MLModel) :
  ~ In (Stdout error_line) (trace (run s w fs)) /\
  (status (run s w fs) = 0%Z /\ uncaught (run s w fs) = None \/
   status (run s w fs) = 1%Z /\ exists e, uncaught (run s w fs) = Some e).
Proof.
  destruct (run_verdict s w fs) as (Hst & Herr & _). split.
  - intros Hin%in_prints. congruence.
  - destruct Hst as [?|[H1 Hu]]; [by left|right]. split; [done|].
    destruct (uncaught (run s w fs)) as [e|]; [by eexists|done].
Qed.

(** X11.  The SUCCESS banner is truthful: whenever a script has printed
    it, also when the run fails afterwards, the package is on disk at the
    output path with the author, license, version and metadata of the
    script. *)
Theorem success_banner_is_truthful (s : script) (w : world)
    (fs : gmap string MLModel) :
  In (Stdout "SUCCESS!") (trace (run s w fs)) ->
  exists pkg,
    files (run s w fs) !! output_path s = Some pkg /\
    annotated s w (boot fs) pkg.
Proof.
  intros Hin%in_prints.
  destruct (run_verdict s w fs) as (_ & _ & _ & _ & H). rewrite Hin in H.
  destruct H as (pkg & Hf & Ha & _). exists pkg. split; [|done].
  rewrite Hf. apply lookup_insert_eq.
Qed.

Lemma success_banner_is_truthful_witness :
  exists pkg,
    files (run DeepfakeXception ideal_world ∅) !! output_path DeepfakeXception
      = Some pkg /\
    license pkg = "Research use".
Proof.
  destruct (success_banner_is_truthful DeepfakeXception ideal_world ∅)
    as (pkg & Hp & _ & Hl & _).
  - vm_compute. tauto.
  - by exists pkg.
Defined.

(** X12.  Among the packages on disk a run changes at most the one at its
    output path.  A run that does not get to [mlmodel.save] changes none
    and ends with status 1.  A run whose [mlmodel.save] raises ends with
    status 1 too, and the package that was at the output path need not be
    there any more: what is there is what the failed save has left. *)
Theorem run_writes_only_its_package (s : script) (w : world)
    (fs : gmap string MLModel) :
  (forall path, path <> output_path s ->
     files (run s w fs) !! path = fs !! path) /\
  (~ In (Called (mlmodel_save (output_path s))) (trace (run s w fs)) ->
     files (run s w fs) = fs /\ status (run s w fs) = 1%Z) /\
  (In (Called (mlmodel_save (output_path s))) (trace (run s w fs)) ->
   ~ In (Stdout "SUCCESS!") (trace (run s w fs)) ->
     files (run s w fs)
     = partial_alter (left_by_failed_save w (output_path s)) (output_path s)
         fs /\
     status (run s w fs) = 1%Z).
Proof.
  destruct (run_verdict s w fs) as (_ & _ & _ & _ & H).
  destruct (prints "SUCCESS!" (trace (run s w fs))) eqn:E.
  - destruct H as (pkg & Hf & _ & _ & _ & _ & Hsave). split_and!.
    + intros path Hp. rewrite Hf. by apply lookup_insert_ne.
    + intros Hno. exfalso. by apply Hno, saving_in.
    + intros _ Hno. exfalso. by apply Hno, prints_in.
  - destruct H as (Hs & _ & Hf). split_and!.
    + intros path Hp. rewrite Hf.
      destruct (saving _ _); [|done]. by apply lookup_partial_alter_ne.
    + intros Hno. split; [|done]. rewrite Hf.
      destruct (saving _ _) eqn:Hsave; [|done].
      exfalso. by apply Hno, saving_in.
    + intros Hin%saving_in _. rewrite Hin in Hf. done.
Qed.

Lemma run_writes_only_its_package_witness :
  files (run AIDetector (without ["torch"] ideal_world) ∅) = ∅ /\
  is_Some (files (run AIDetector ideal_world ∅) !! "AIDetector.mlpackage") /\
  files (run AIDetector full_disk_world (files (run AIDetector ideal_world ∅)))
    !! "AIDetector.mlpackage" = None.
Proof.
  split_and!.
  - destruct (run_writes_only_its_package AIDetector
                (without ["torch"] ideal_world) ∅) as (_ & H & _).
    destruct H as [Hf _]; [|exact Hf].
    vm_compute. intros H. exact H.
  - vm_compute. by eexists.
  - destruct (run_writes_only_its_package AIDetector full_disk_world
                (files (run AIDetector ideal_world ∅))) as (_ & _ & H).
    destruct H as [Hf _].
    + apply saving_in. vm_compute. reflexivity.
    + apply prints_false. vm_compute. reflexivity.
    + rewrite Hf. apply lookup_partial_alter_eq.
Defined.

(** X13.  The package a script has saved is the one [ct.convert] built
    from the script's image input: the input has the script's name, scale,
    bias and color layout (and, in the XceptionNet script, the shape
    1 x 3 x 299 x 299), the output has the script's name, the package is an
    ML program in Float16 for macOS 14, and the metadata entries the
    converter wrote under other keys than those of [finalize_model] are
    still there. *)
Theorem saved_package_interface (s : script) (w : world)
    (fs : gmap string MLModel) :
  In (Stdout "SUCCESS!") (trace (run s w fs)) ->
  exists pkg,
    files (run s w fs) !! output_path s = Some pkg /\
    input_description pkg = image_input_of s w /\
    output_name pkg = output_of s /\
    minimum_deployment_target pkg = "macOS14" /\
    convert_to pkg = "mlprogram" /\
    compute_precision pkg = "FLOAT16" /\
    forall k, ~ In k (metadata_keys s) ->
      user_defined_metadata pkg !! k = converter_metadata w !! k.
Proof.
  intros Hin%in_prints.
  destruct (run_verdict s w fs) as (_ & _ & _ & _ & H). rewrite Hin in H.
  destruct H as (pkg & Hf & _ & Hc & _). exists pkg. split; [|exact Hc].
  rewrite Hf. apply lookup_insert_eq.
Qed.

Lemma saved_package_interface_witness :
  exists pkg,
    files (run DeepfakeXception ideal_world ∅) !! output_path DeepfakeXception
      = Some pkg /\
    shape (input_description pkg) = [1; 3; 299; 299]%nat /\
    output_name pkg = "probabilities".
Proof.
  destruct (saved_package_interface DeepfakeXception ideal_world ∅)
    as (pkg & Hp & Hi & Ho & _).
  - vm_compute. tauto.
  - exists pkg. split_and!; [exact Hp| |exact Ho]. by rewrite Hi.
Defined.

(** X14.  A script reads its package back only after it has saved it, and
    then in a fixed order: the two deepfake scripts always measure the
    size of the package at the output path first (the existence test
    before it never fails), then each script reloads the package from the
    output path and predicts with the input name the package declares. *)
Theorem checks_follow_the_save (s : script) (w : world)
    (fs : gmap string MLModel) :
  (~ In (Stdout "SUCCESS!") (trace (run s w fs)) ->
     checks (trace (run s w fs)) = []) /\
  (In (Stdout "SUCCESS!") (trace (run s w fs)) ->
     exists pkg,
       files (run s w fs) !! output_path s = Some pkg /\
       checks (trace (run s w fs)) `prefix_of` expected_checks s pkg /\
       (s <> AIDetector ->
        In (Called (rglob_sizes (output_path s))) (trace (run s w fs)))).
Proof.
  destruct (run_verdict s w fs) as (_ & _ & _ & _ & H).
  destruct (prints "SUCCESS!" (trace (run s w fs))) eqn:E.
  - destruct H as (pkg & Hf & _ & _ & Hpre & Hne & _). split.
    + intros Hno. exfalso. apply Hno.
      by apply prints_in.
    + intros _. exists pkg. split_and!; [|done|].
      * rewrite Hf. apply lookup_insert_eq.
      * intros Hs. specialize (Hne Hs). apply in_checks.
        destruct (checks (trace (run s w fs))) as [|c cs]; [done|].
        left. destruct Hpre as [k Hk].
        destruct s; [done|..]; cbn [expected_checks app] in Hk;
          by injection Hk as <- _.
  - destruct H as (_ & Hc & _). split; [done|].
    intros Hin%in_prints. congruence.
Qed.

Lemma checks_follow_the_save_witness :
  In (Called (rglob_sizes "DeepfakeDetector.mlpackage"))
     (trace (run DeepfakeSigLIP unpredictable_world ∅)).
Proof.
  destruct (checks_follow_the_save DeepfakeSigLIP unpredictable_world ∅)
    as [_ H].
  destruct H as (pkg & _ & _ & Hm); [vm_compute; tauto|].
  apply Hm. discriminate.
Defined.

(** X15.  The two verdict lines tell how the smoke test went, the exit
    status does not: a run that ends with status 0 has printed exactly one
    of "Model verification PASSED!" and "Model may still work - compile
    and test in Xcode.", and a run that ends with another status has
    printed neither. *)
Theorem verification_verdict (s : script) (w : world)
    (fs : gmap string MLModel) :
  let t := trace (run s w fs) in
  (status (run s w fs) = 0%Z ->
     In (Stdout passed_line) t /\ ~ In (Stdout retry_line) t \/
     ~ In (Stdout passed_line) t /\ In (Stdout retry_line) t) /\
  (status (run s w fs) <> 0%Z ->
     ~ In (Stdout passed_line) t /\ ~ In (Stdout retry_line) t).
Proof.
  intros t. subst t.
  destruct (run_verdict s w fs) as (_ & _ & Hor & Hand & _).
  destruct (prints passed_line (trace (run s w fs))) eqn:Ep;
    destruct (prints retry_line (trace (run s w fs))) eqn:Er;
    try discriminate Hand; cbn [orb] in Hor; symmetry in Hor.
  - apply Z.eqb_eq in Hor. split; [|done]. intros _. left.
    split; [by apply prints_in|by apply prints_false].
  - apply Z.eqb_eq in Hor. split; [|done]. intros _. right.
    split; [by apply prints_false|by apply prints_in].
  - apply Z.eqb_neq in Hor. split; [done|]. intros _.
    split; by apply prints_false.
Qed.

Lemma verification_verdict_witness :
  In (Stdout retry_line) (trace (run AIDetector unpredictable_world ∅)) /\
  ~ In (Stdout passed_line) (trace (run AIDetector unpredictable_world ∅)).
Proof.
  destruct (verification_verdict AIDetector unpredictable_world ∅) as [H _].
  destruct H as [[Hp Hr]|[Hp Hr]]; [vm_compute; reflexivity| |by split].
  exfalso. apply Hr. vm_compute. tauto.
Defined.

(** ** The network that is converted *)

Lemma main_leaves_network_in_eval_mode w st :
  wp (Xception.main w) st (fun r t st' =>
    match r with
    | Ok _ =>
        exists model n,
          heap st !! model = None /\ heap st' !! model = Some n /\
          training n = false /\ num_classes n = 2%nat /\
          aux_logits n = false /\
          written_from w Xception.weight_urls ImageNet (params n) /\
          forall l, l <> model -> heap st' !! l = heap st !! l
    | _ => True
    end).
Proof.
  unfold Xception.main. wp_exec.
  all: try exact I.
  eapply wp_mono; [apply create_xceptionnet_model_post|].
  intros [model|e|c] t1 st1 Hcreate; [|exact I..].
  destruct Hcreate as (_ & Hfresh & Hother1 & n & Hn & Hcls & Haux & Hpar & _).
  unfold Xception.download_pretrained_weights. wp_exec.
  eapply wp_mono;
    [apply wp_and; [apply download_from_spec|apply download_from_heap]|].
  intros r t2 st2 ((-> & _) & (Hother2 & _ & Hmodel)).
  destruct (Hmodel n Hn) as (p & Hp & Hfrom).
  wp_exec_saved.
  all: try exact I.
  all: cbn [heap]; exists model, (train false (train false (with_params p n))).
  all: split_and!; try done;
    [ by rewrite !lookup_alter_eq, Hp
    | cbn [params train with_params]; by rewrite <- Hpar
    | intros l Hl; by rewrite !lookup_alter_ne, Hother2, Hother1 ].
Qed.

(** X16.  When [main] of the XceptionNet script returns, it has changed
    the heap by one object only, the network it built: a new two-class
    network without auxiliary logits, in evaluation mode.  Its parameters
    are the ImageNet ones, or the state dict of the weight URL, or the
    ImageNet ones with what a [load_state_dict] that raised on that state
    dict had copied over them. *)
Theorem converted_network_is_in_eval_mode (w : world) (st : state)
    (t : list event) (st' : state) :
  Xception.main w st = (Ok tt, t, st') ->
  exists model n,
    heap st !! model = None /\ heap st' !! model = Some n /\
    training n = false /\ num_classes n = 2%nat /\ aux_logits n = false /\
    (exists url, Xception.weight_urls = [url] /\
       (params n = ImageNet \/
        Xception.load_failure w url = None /\
        params n = Loaded (state_dict_of w url) \/
        Xception.fetch_failure w url = None /\
        (exists e, fails w (load_state_dict (state_dict_of w url)) = Some e) /\
        params n = Partly (state_dict_of w url) ImageNet)) /\
    forall l, l <> model -> heap st' !! l = heap st !! l.
Proof.
  intros H.
  destruct (wp_eq _ _ _ _ _ _ H (main_leaves_network_in_eval_mode w st))
    as (model & n & Hfresh & Hn & Ht & Hc & Ha & Hp & Hother).
  exists model, n. split_and!; try done.
  eexists. split; [reflexivity|]. exact Hp.
Qed.

Lemma converted_network_is_in_eval_mode_witness :
  exists n,
    heap (Xception.main offline_world (boot ∅)).2 !! 0%nat = Some n /\
    training n = false /\ num_classes n = 2%nat.
Proof.
  destruct (converted_network_is_in_eval_mode offline_world (boot ∅)
              (Xception.main offline_world (boot ∅)).1.2
              (Xception.main offline_world (boot ∅)).2)
    as (model & n & _ & Hn & Ht & Hc & _ & _ & Hother).
  - vm_compute. reflexivity.
  - destruct (decide (model = 0%nat)) as [->|Hne]; [by exists n|].
    exfalso. specialize (Hother 0%nat (not_eq_sym Hne)).
    vm_compute in Hother. discriminate Hother.
Defined.

(** ** The range of the preprocessed pixels *)

Section Ranges.
Import Lqa.

(** Replaces the closed factor of [p * k] by its reduced fraction. *)
Ltac reduce_factor p :=
  lazymatch goal with
  | |- context [(p * ?k)%Q] =>
      let k' := eval vm_compute in (Qred k) in
      setoid_replace k with k' using relation Qeq by (vm_compute; reflexivity)
  end.

Lemma siglip_preprocess_formula (it : ImageType) (c : nat) (p : Q) :
  (c < 3)%nat -> (scale it == 1 / 127.5)%Q -> bias it = [-1; -1; -1]%Q ->
  (preprocess it c p == p * (2 # 255) - 1)%Q.
Proof.
  intros Hc Hs Hb. unfold preprocess. rewrite Hs, Hb.
  destruct c as [|[|[|c]]]; [| | |lia]; cbn [nth]; field.
Qed.

(** X17.  The image inputs of the two SigLIP-based scripts map the pixel
    values 0..255 into the interval [-1, 1]: 0 goes to -1, 255 goes to 1,
    the map is increasing, and it is the same map in both scripts. *)
Theorem siglip_preprocessing_range (input_shape : list nat) (c : nat)
    (p q : Q) :
  (c < 3)%nat -> (0 <= p)%Q -> (p <= q)%Q -> (q <= 255)%Q ->
  let f := preprocess (SigLIP.image_input input_shape) c in
  let g := preprocess (Deepfake.image_input input_shape) c in
  (f 0 == -1)%Q /\ (f 255 == 1)%Q /\ (-1 <= f p)%Q /\ (f p <= f q)%Q /\
  (f q <= 1)%Q /\ (g p == f p)%Q.
Proof.
  intros Hc H0 Hpq H255 f g.
  assert (forall x, f x == x * (2 # 255) - 1)%Q as Hf
    by (intros x; by apply siglip_preprocess_formula).
  assert (forall x, g x == x * (2 # 255) - 1)%Q as Hg
    by (intros x; by apply siglip_preprocess_formula).
  rewrite !Hf, Hg. split_and!; lra.
Qed.

Lemma siglip_preprocessing_range_witness :
  (-1 <= preprocess (SigLIP.image_input [1; 3; 224; 224]%nat) 0 128)%Q /\
  (preprocess (SigLIP.image_input [1; 3; 224; 224]%nat) 0 200 <= 1)%Q.
Proof.
  destruct (siglip_preprocessing_range [1; 3; 224; 224]%nat 0 128 200)
    as (_ & _ & H1 & _ & H2 & _); [lia|done..|].
  split; [exact H1|exact H2].
Defined.

(** X18.  On the pixel values 0..255 the transform of the XceptionNet
    image input stays within 0.058 of the ImageNet normalization on every
    channel.  It is never below it on the red channel and never above it on
    the green and blue channels, and the bound is nearly reached: at 255 on
    the red channel the gap exceeds 0.0579. *)
Theorem xception_preprocessing_error_bound (input_shape : list nat)
    (c : nat) (p : Q) :
  (c < 3)%nat -> (0 <= p <= 255)%Q ->
  let gap := (preprocess (Xception.image_input input_shape) c p
              - Xception.imagenet_normalization c p)%Q in
  (-0.058 <= gap <= 0.058)%Q /\
  (c = 0%nat -> 0 <= gap)%Q /\
  (c <> 0%nat -> gap <= 0)%Q /\
  (0.0579 < preprocess (Xception.image_input input_shape) 0 255
            - Xception.imagenet_normalization 0 255)%Q.
Proof.
  intros Hc [H0 H255] gap.
  pose proof (xception_preprocessing_gap input_shape c p Hc) as Hgap.
  pose proof (xception_preprocessing_gap input_shape 0 255 ltac:(lia)) as Hred.
  fold gap in Hgap. rewrite Hred. clear Hred. clearbody gap.
  cbn [nth Xception.imagenet_std].
  split_and!.
  - rewrite Hgap. destruct c as [|[|[|c]]]; [| | |lia];
      cbn [nth Xception.imagenet_std]; reduce_factor p; lra.
  - rewrite Hgap. destruct c as [|[|[|c]]]; [| | |lia];
      cbn [nth Xception.imagenet_std]; reduce_factor p; lra.
  - intros ->. rewrite Hgap. cbn [nth Xception.imagenet_std].
    reduce_factor p. lra.
  - intros Hne. rewrite Hgap. destruct c as [|[|[|c]]]; [done| | |lia];
      cbn [nth Xception.imagenet_std]; reduce_factor p; lra.
  - reduce_factor 255%Q. lra.
Qed.

Lemma xception_preprocessing_error_bound_witness :
  (preprocess (Xception.image_input [1; 3; 299; 299]%nat) 1 128
   - Xception.imagenet_normalization 1 128 <= 0)%Q.
Proof.
  destruct (xception_preprocessing_error_bound [1; 3; 299; 299]%nat 1 128)
    as (_ & _ & H & _); [lia|done|].
  apply H. lia.
Defined.

End Ranges.
